(** * The Volkswagen WeConnect integration: a model of
      custom_components/volkswagencarnet/__init__.py

    The module is glue between Home Assistant and the volkswagencarnet
    client library.  The model below follows the Python source function by
    function: dictionaries are finite maps with string keys, Python values
    are a small tagged union, exceptions are an explicit result type, and
    the coroutine [report_request], which reads and writes the coordinator
    while calling the client, is written in a state-and-exception monad
    that also records every call issued to the client. *)

From Stdlib Require Import ZArith Ascii String List Bool Lia.
From stdpp Require Import gmap strings list fin_maps pretty.

Set Warnings "-register-all".

Open Scope Z_scope.
Open Scope string_scope.

(** ** Python values and exceptions *)

(** The values that reach this module through configuration entries,
    service payloads and instrument states.  Dictionaries are keyed by
    strings, as configuration and service data are. *)
Inductive pyval : Type :=
| PNone
| PBool (b : bool)
| PInt (z : Z)
| PStr (s : string)
| PList (l : list pyval)
| PDict (d : gmap string pyval).

Inductive exn : Type :=
| TypeError
| AttributeError
| KeyError
| ClientError (msg : string).

(** The outcome of evaluating a Python expression or call. *)
Inductive result (A : Type) : Type :=
| Ok (a : A)
| Raise (e : exn).

Arguments Ok {A} a.
Arguments Raise {A} e.

(** [bool(v)]. *)
Definition truthy (v : pyval) : bool :=
  match v with
  | PNone => false
  | PBool b => b
  | PInt z => negb (Z.eqb z 0)
  | PStr s => negb (String.eqb s "")
  | PList l => match l with [] => false | _ => true end
  | PDict d => match map_to_list d with [] => false | _ => true end
  end.

(** [d.get(k, dflt)]. *)
Definition dict_get (d : gmap string pyval) (k : string) (dflt : pyval) : pyval :=
  default dflt (d !! k).

(** [v == c] for a scalar [c] (an int, a bool, a string or None): bools
    compare as the integers 0 and 1, a list or a dict equals no scalar. *)
Definition py_eq_scalar (v c : pyval) : bool :=
  match v, c with
  | PNone, PNone => true
  | PStr a, PStr b => String.eqb a b
  | PInt a, PInt b => Z.eqb a b
  | PInt a, PBool b => Z.eqb a (Z.b2z b)
  | PBool a, PInt b => Z.eqb (Z.b2z a) b
  | PBool a, PBool b => Bool.eqb a b
  | _, _ => false
  end.

(** [a < v] for an int [a]: defined against ints and bools, a TypeError
    against anything else this model holds. *)
Definition py_int_lt (a : Z) (v : pyval) : result bool :=
  match v with
  | PInt z => Ok (Z.ltb a z)
  | PBool b => Ok (Z.ltb a (Z.b2z b))
  | _ => Raise TypeError
  end.

(** ** Strings: [str.upper] and [str.lower]

    Identifiers are strings of 8-bit characters. [upper] and [lower] are
    [str.upper] and [str.lower] on ASCII strings, the strings [is_ascii]
    accepts: there they act on the letters a-z and A-Z and leave every
    other character alone. Python also converts letters beyond ASCII;
    what is stated of a comparison of identifiers is stated of ASCII
    identifiers. *)

Definition is_ascii_char (c : ascii) : bool := (nat_of_ascii c <? 128)%nat.

Fixpoint is_ascii (s : string) : bool :=
  match s with
  | EmptyString => true
  | String c s' => is_ascii_char c && is_ascii s'
  end.

Definition is_lower (c : ascii) : bool :=
  let n := nat_of_ascii c in ((97 <=? n) && (n <=? 122))%nat.

Definition is_upper (c : ascii) : bool :=
  let n := nat_of_ascii c in ((65 <=? n) && (n <=? 90))%nat.

Definition upper_ascii (c : ascii) : ascii :=
  if is_lower c then ascii_of_nat (nat_of_ascii c - 32) else c.

Definition lower_ascii (c : ascii) : ascii :=
  if is_upper c then ascii_of_nat (nat_of_ascii c + 32) else c.

Fixpoint upper (s : string) : string :=
  match s with
  | EmptyString => EmptyString
  | String c s' => String (upper_ascii c) (upper s')
  end.

Fixpoint lower (s : string) : string :=
  match s with
  | EmptyString => EmptyString
  | String c s' => String (lower_ascii c) (lower s')
  end.

(** Two characters are the same up to case: equal, or one is a lower-case
    letter and the other the capital 32 code points below it. *)
Definition same_letter (x y : ascii) : Prop :=
  x = y
  \/ (is_lower x = true /\ nat_of_ascii x = (nat_of_ascii y + 32)%nat)
  \/ (is_lower y = true /\ nat_of_ascii y = (nat_of_ascii x + 32)%nat).

(** Case-insensitive exact comparison, character by character. *)
Fixpoint same_ignoring_case (a b : string) : Prop :=
  match a, b with
  | EmptyString, EmptyString => True
  | String x a', String y b' => same_letter x y /\ same_ignoring_case a' b'
  | _, _ => False
  end.

(** ** Constants of const.py

    The module imports its configuration keys and defaults from const.py;
    the model takes them as an interface. *)
Class const : Type := {
  DOMAIN : string;
  CONF_NAME : string;
  CONF_VEHICLE : string;
  CONF_CONVERT : string;
  CONF_NO_CONVERSION : string;
  CONF_IMPERIAL_UNITS : string;
  CONF_SCANDINAVIAN_MILES : string;
  CONF_REPORT_SCAN_INTERVAL : string;
  DEFAULT_REPORT_UPDATE_INTERVAL : Z;
}.

(** ** The objects the module works on *)

(** [volkswagencarnet.vw_vehicle.Vehicle], as far as this module reads it:
    the identifier ([vin], a [str]) and the charging flag. *)
Module Vehicle.
Record t : Type := mk {
  vin : string;
  charging : bool;
}.
End Vehicle.

(** [volkswagencarnet.vw_dashboard.Instrument]: a reading of one vehicle. *)
Module Instrument.
Record t : Type := mk {
  vehicle : Vehicle.t;
  component : string;
  attr : string;
  name : string;
  state : pyval;
  icon : option string;
}.
End Instrument.

(** What identifies an instrument: vehicle identifier, component
    (capability) and attribute key. *)
Definition instrument_identity (i : Instrument.t) : string * string * string :=
  (Vehicle.vin (Instrument.vehicle i), Instrument.component i, Instrument.attr i).

(** [homeassistant.config_entries.ConfigEntry]: the two mappings. *)
Module ConfigEntry.
Record t : Type := mk {
  data : gmap string pyval;
  options : gmap string pyval;
}.
End ConfigEntry.

(** [volkswagencarnet.vw_connection.Connection]: the session flag, and the
    vehicles the last [update()] fetched. *)
Module Connection.
Record t : Type := mk {
  logged_in : bool;
  vehicles : list Vehicle.t;
}.
End Connection.

(** ** Unit conversion *)

Section Convert.
Context `{K : const}.

Definition get_convert_conf (entry : ConfigEntry.t) : pyval :=
  if truthy (dict_get (ConfigEntry.options entry) CONF_SCANDINAVIAN_MILES
               (dict_get (ConfigEntry.data entry) CONF_SCANDINAVIAN_MILES (PBool false)))
  then PStr CONF_SCANDINAVIAN_MILES
  else PStr CONF_NO_CONVERSION.

(** The lines of [_async_update_data] that resolve the mode:
    [convert_conf = entry.options.get(CONF_CONVERT,
                      entry.data.get(CONF_CONVERT, default_convert_conf))]. *)
Definition convert_conf (entry : ConfigEntry.t) : pyval :=
  let default_convert_conf := get_convert_conf entry in
  dict_get (ConfigEntry.options entry) CONF_CONVERT
    (dict_get (ConfigEntry.data entry) CONF_CONVERT default_convert_conf).

(** The two keyword arguments [_async_update_data] derives from the mode
    and hands to [vehicle.dashboard]. *)
Definition dashboard_miles (entry : ConfigEntry.t) : bool :=
  py_eq_scalar (convert_conf entry) (PStr CONF_IMPERIAL_UNITS).

Definition dashboard_scandinavian_miles (entry : ConfigEntry.t) : bool :=
  py_eq_scalar (convert_conf entry) (PStr CONF_SCANDINAVIAN_MILES).

End Convert.

(** ** The coordinator *)

(** Calls issued to the client library, in the order they are made. *)
Inductive call : Type :=
| CallUpdate
| CallDoLogin
| CallRequestReport (vehicle : Vehicle.t).

(** What the outside answers during one run of [report_request]: the two
    readings of [datetime.now()] (microseconds on the local clock), what
    [connection.doLogin()] leaves in [logged_in] or raises, and what
    [vehicle.request_report()] returns or raises. The client owns the
    connection, so each call also says what it leaves there:
    [doLogin_vehicles] is the vehicle list after the login,
    [doLogin_raised_session] the session flag after a login that raised,
    and [request_report_leaves] the connection after the report request. *)
Record answers : Type := {
  now_gate : Z;
  doLogin_answer : result bool;
  doLogin_vehicles : list Vehicle.t;
  doLogin_raised_session : bool;
  request_report_answer : result pyval;
  request_report_leaves : Connection.t;
  now_stamp : Z;
}.

(** What the outside answers to [connection.update()]: what the call
    returns or raises, and the connection (session flag and vehicle list)
    as the call leaves it. *)
Record fetch : Type := {
  update_answer : result bool;
  update_leaves : Connection.t;
}.

(** [timedelta.days] of a difference of two datetimes: whole days, rounded
    towards minus infinity. *)
Definition microseconds_per_day : Z := 86400000000.

Definition timedelta_days (delta : Z) : Z := delta / microseconds_per_day.

Module VolkswagenCoordinator.

(** The fields of the coordinator: those set in [__init__] and [data],
    inherited from [DataUpdateCoordinator], which is [None] until a refresh
    has stored an instrument list. *)
Record t : Type := mk {
  vin : string;
  entry : ConfigEntry.t;
  platforms : list string;
  report_last_updated : option Z;
  connection : Connection.t;
  data : option (list Instrument.t);
}.

Definition set_report_last_updated (v : option Z) (c : t) : t :=
  mk (vin c) (entry c) (platforms c) v (connection c) (data c).

Definition set_connection (conn : Connection.t) (c : t) : t :=
  mk (vin c) (entry c) (platforms c) (report_last_updated c) conn (data c).

Definition set_data (d : option (list Instrument.t)) (c : t) : t :=
  mk (vin c) (entry c) (platforms c) (report_last_updated c) (connection c) d.

(** *** The monad of the coroutines: the coordinator, the calls issued so
    far, and exceptions.  A raise keeps the state reached. *)
Record world : Type := {
  self : t;
  issued : list call;
}.

Definition M (A : Type) : Type := world -> result A * world.

Definition ret {A} (a : A) : M A := fun w => (Ok a, w).

Definition raise {A} (e : exn) : M A := fun w => (Raise e, w).

Definition bind {A B} (m : M A) (k : A -> M B) : M B :=
  fun w => match m w with
           | (Ok a, w') => k a w'
           | (Raise e, w') => (Raise e, w')
           end.

Definition try_except {A} (body : M A) (handler : exn -> M A) : M A :=
  fun w => match body w with
           | (Ok a, w') => (Ok a, w')
           | (Raise e, w') => handler e w'
           end.

Definition lift {A} (r : result A) : M A := fun w => (r, w).

Definition get_self : M t := fun w => (Ok (self w), w).

Definition put_self (c : t) : M unit :=
  fun w => (Ok tt, {| self := c; issued := issued w |}).

Definition issue (c : call) : M unit :=
  fun w => (Ok tt, {| self := self w; issued := issued w ++ [c] |}).

Notation "'let*' x ':=' m 'in' k" := (bind m (fun x => k))
  (at level 10, x name, m at level 100, k at level 200).

Notation "m ';;' k" := (bind m (fun _ => k))
  (at level 100, k at level 200, right associativity).

(** [await self.connection.update()]: the connection becomes what the
    client leaves, and the call answers whether the fetch worked, or
    raises. *)
Definition connection_update (fetched : fetch) : M bool :=
  issue CallUpdate ;;
  let* c := get_self in
  put_self (set_connection (update_leaves fetched) c) ;;
  lift (update_answer fetched).

(** [await self.connection.doLogin()]: the connection becomes what the
    client leaves, whether the login returns or raises. *)
Definition connection_doLogin (a : answers) : M unit :=
  issue CallDoLogin ;;
  let* c := get_self in
  match doLogin_answer a with
  | Ok flag =>
      put_self (set_connection (Connection.mk flag (doLogin_vehicles a)) c)
  | Raise e =>
      put_self (set_connection
                  (Connection.mk (doLogin_raised_session a) (doLogin_vehicles a)) c) ;;
      raise e
  end.

(** [await vehicle.request_report()]: the connection becomes what the
    client leaves, and the call returns or raises. *)
Definition vehicle_request_report (a : answers) (vehicle : Vehicle.t) : M pyval :=
  issue (CallRequestReport vehicle) ;;
  let* c := get_self in
  put_self (set_connection (request_report_leaves a) c) ;;
  lift (request_report_answer a).

Section Methods.
Context `{K : const}.

(** [__init__]: the configured identifier is stored in upper case. *)
Definition init (entry : ConfigEntry.t) (conn : Connection.t) : result t :=
  match ConfigEntry.data entry !! CONF_VEHICLE with
  | None => Raise KeyError
  | Some (PStr v) => Ok (mk (upper v) entry [] None conn None)
  | Some _ => Raise AttributeError
  end.

(** [update]: the first fetched vehicle whose upper-cased identifier is the
    coordinator's, [None] when the fetch fails or no vehicle matches. *)
Definition update (fetched : fetch) : M (option Vehicle.t) :=
  let* ok := connection_update fetched in
  if negb ok then ret None
  else
    let* c := get_self in
    ret (List.find (fun vehicle => String.eqb (upper (Vehicle.vin vehicle)) (vin c))
           (Connection.vehicles (connection c))).

(** The elapsed whole days [report_request] compares with the interval. *)
Definition days_since_last_update (last : option Z) (now : Z) : Z :=
  match last with
  | None => 1
  | Some t0 => timedelta_days (now - t0)
  end.

Definition report_interval (c : t) : pyval :=
  dict_get (ConfigEntry.options (entry c)) CONF_REPORT_SCAN_INTERVAL
    (PInt DEFAULT_REPORT_UPDATE_INTERVAL).

(** [report_request]: the interval gate, then under [try]/[except] the
    re-login when the session is gone, the report request, and the new
    timestamp once the request has been accepted. *)
Definition report_request (a : answers) (vehicle : Vehicle.t) : M unit :=
  let* c := get_self in
  let* suppressed :=
    lift (py_int_lt (days_since_last_update (report_last_updated c) (now_gate a))
            (report_interval c)) in
  if suppressed then ret tt
  else
    try_except
      (let* session :=
         (if negb (Connection.logged_in (connection c))
          then connection_doLogin a ;;
               let* c1 := get_self in
               ret (Connection.logged_in (connection c1))
          else ret true) in
       if negb session then ret tt
       else
         let* accepted := vehicle_request_report a vehicle in
         if negb (truthy accepted) then ret tt
         else
           let* c2 := get_self in
           put_self (set_report_last_updated (Some (now_stamp a)) c2))
      (fun _ => ret tt).

End Methods.

End VolkswagenCoordinator.

(** ** The data holder *)

Module VolkswagenData.

(** [instruments] is a Python set: the list is its iteration order.
    [names] is whatever the configuration holds under [CONF_NAME]. *)
Record t : Type := mk {
  instruments : list Instrument.t;
  names : pyval;
  coordinator : option VolkswagenCoordinator.t;
}.

Section Methods.
Context `{K : const}.

(** [__init__]: [config.get(DOMAIN, config)], then [.get(CONF_NAME, None)]
    on the outcome. *)
Definition init (config : gmap string pyval)
    (coordinator : option VolkswagenCoordinator.t) : result t :=
  match dict_get config DOMAIN (PDict config) with
  | PDict conf => Ok (mk [] (dict_get conf CONF_NAME PNone) coordinator)
  | _ => Raise AttributeError
  end.

End Methods.

(** The test of the generator expression in [instrument]. *)
Definition matches (vin component attr : string) (instrument : Instrument.t) : bool :=
  String.eqb (Vehicle.vin (Instrument.vehicle instrument)) vin
  && String.eqb (Instrument.component instrument) component
  && String.eqb (Instrument.attr instrument) attr.

(** [instrument]: [next] over the coordinator's [data] when there is a
    coordinator, over [self.instruments] otherwise; iterating [None] is a
    TypeError. *)
Definition instrument (self : t) (vin component attr : string)
    : result (option Instrument.t) :=
  match coordinator self with
  | Some c =>
      match VolkswagenCoordinator.data c with
      | Some snapshot => Ok (List.find (matches vin component attr) snapshot)
      | None => Raise TypeError
      end
  | None => Ok (List.find (matches vin component attr) (instruments self))
  end.

(** [vehicle_name].  [x in names] is a key test on a dict, a search by
    equality on a list and a TypeError on None, a bool or an int;
    [names[x]] on a list with a string index is a TypeError. *)
Definition vehicle_name (self : t) (vehicle : Vehicle.t) : result pyval :=
  let vin := Vehicle.vin vehicle in
  match names self with
  | PStr s => Ok (PStr s)
  | PDict d =>
      if negb (String.eqb vin "") then
        match d !! lower vin with
        | Some v => Ok v
        | None => Ok (PStr vin)
        end
      else Ok (PStr "")
  | PList l =>
      if negb (String.eqb vin "") then
        if existsb (fun x => py_eq_scalar x (PStr (lower vin))) l
        then Raise TypeError
        else Ok (PStr vin)
      else Ok (PStr "")
  | PNone | PBool _ | PInt _ =>
      if negb (String.eqb vin "") then Raise TypeError else Ok (PStr "")
  end.

End VolkswagenData.

(** ** The entity adapter *)

(** [homeassistant.helpers.icon.icon_for_battery_level], for the levels
    this model holds: an int (a bool counts as 0 or 1) or None; ordering a
    string, a list or a dict against a number is a TypeError. For an int
    [n], [int(round(n / 20 - 0.01)) * 20] is [(5 n + 49) / 100 * 20] with
    the division rounded down, and likewise for tens. *)
Definition ha_icon_for_battery_level (battery_level : pyval) (charging : bool)
    : result string :=
  let numeric (n : Z) : string :=
    if charging && Z.ltb 10 n then
      "mdi:battery" +:+ "-charging-" +:+ pretty ((5 * n + 49) / 100 * 20)
    else if charging then "mdi:battery" +:+ "-outline"
    else if Z.leb n 5 then "mdi:battery" +:+ "-alert"
    else if Z.ltb 5 n && Z.ltb n 95 then
      "mdi:battery" +:+ "-" +:+ pretty ((10 * n + 49) / 100 * 10)
    else "mdi:battery" in
  match battery_level with
  | PNone => Ok "mdi:battery-unknown"
  | PInt n => Ok (numeric n)
  | PBool b => Ok (numeric (Z.b2z b))
  | PStr _ | PList _ | PDict _ => Raise TypeError
  end.

Module VolkswagenEntity.

(** The fields [__init__] stores: the data holder and the triple. *)
Record t : Type := mk {
  data : VolkswagenData.t;
  vin : string;
  component : string;
  attribute : string;
}.

Definition instrument (self : t) : result (option Instrument.t) :=
  VolkswagenData.instrument (data self) (vin self) (component self) (attribute self).

(** [self.instrument.<field>]: an AttributeError when the lookup gave None. *)
Definition instrument_attr {A} (self : t) (field : Instrument.t -> A) : result A :=
  match instrument self with
  | Ok (Some i) => Ok (field i)
  | Ok None => Raise AttributeError
  | Raise e => Raise e
  end.

Definition vehicle (self : t) : result Vehicle.t :=
  instrument_attr self Instrument.vehicle.

Section Icon.
(** The battery icon helper of the host platform. *)
Variable icon_for_battery_level : pyval -> bool -> result string.

Definition icon (self : t) : result (option string) :=
  match instrument_attr self Instrument.attr with
  | Raise e => Raise e
  | Ok attr =>
      if existsb (String.eqb attr) ["battery_level"; "charging"] then
        match instrument_attr self Instrument.state with
        | Raise e => Raise e
        | Ok state =>
            match vehicle self with
            | Raise e => Raise e
            | Ok v =>
                match icon_for_battery_level state (Vehicle.charging v) with
                | Ok s => Ok (Some s)
                | Raise e => Raise e
                end
            end
        end
      else instrument_attr self Instrument.icon
  end.

End Icon.

Definition unique_id (self : t) : string :=
  vin self +:+ "-" +:+ component self +:+ "-" +:+ attribute self.

(** One refresh cycle as the entity sees it: the coordinator behind the
    shared data holder stores a new instrument list. *)
Definition after_refresh (fresh : list Instrument.t) (self : t) : t :=
  let d := data self in
  mk (VolkswagenData.mk (VolkswagenData.instruments d) (VolkswagenData.names d)
        (VolkswagenCoordinator.set_data (Some fresh) <$> VolkswagenData.coordinator d))
     (vin self) (component self) (attribute self).

End VolkswagenEntity.

(** ** The command-service schemas *)

(** A voluptuous validator: the coerced value, or [None] for [vol.Invalid]. *)
Definition validator : Type := pyval -> option pyval.

(** [cv.string]: None, lists and dicts are refused, a string is kept, any
    other value is replaced by its [str()]. *)
Definition cv_string : validator := fun v =>
  match v with
  | PNone => None
  | PStr s => Some (PStr s)
  | PList _ | PDict _ => None
  | PBool b => Some (PStr (if b then "True" else "False"))
  | PInt z => Some (PStr (pretty z))
  end.

(** [len(v)], where it is defined. *)
Definition py_len (v : pyval) : option nat :=
  match v with
  | PStr s => Some (String.length s)
  | PList l => Some (length l)
  | PDict d => Some (size d)
  | _ => None
  end.

(** [vol.Length(min=lo, max=hi)]. *)
Definition vol_Length (lo hi : nat) : validator := fun v =>
  match py_len v with
  | Some n => if (Nat.leb lo n && Nat.leb n hi)%bool then Some v else None
  | None => None
  end.

(** [vol.In(container)]. *)
Definition vol_In (container : list pyval) : validator := fun v =>
  if existsb (py_eq_scalar v) container then Some v else None.

(** [vol.All(...)]: each validator is applied to the outcome of the one
    before. *)
Fixpoint vol_All (vs : list validator) : validator := fun v =>
  match vs with
  | [] => Some v
  | f :: rest => match f v with Some v' => vol_All rest v' | None => None end
  end.

(** [vol.Any(...)]: the first validator that accepts. *)
Fixpoint vol_Any (vs : list validator) : validator := fun v =>
  match vs with
  | [] => None
  | f :: rest => match f v with Some v' => Some v' | None => vol_Any rest v end
  end.

(** [vol.Range(min, max, min_included, max_included)]: a bound that is
    [None] is not compared at all. *)
Definition vol_Range (lo hi : option Z) (min_included max_included : bool)
    : validator := fun v =>
  let number := match v with
                | PInt n => Some n
                | PBool b => Some (Z.b2z b)
                | _ => None
                end in
  let above (m : Z) := match number with
                       | Some n => if min_included then Z.leb m n else Z.ltb m n
                       | None => false
                       end in
  let below (m : Z) := match number with
                       | Some n => if max_included then Z.leb n m else Z.ltb n m
                       | None => false
                       end in
  if (from_option above true lo && from_option below true hi)%bool
  then Some v else None.

Inductive marker : Type := Required | Optional.

(** A [vol.Schema] over a dict with [extra=vol.ALLOW_EXTRA]: the declared
    keys with their markers and validators. *)
Definition schema : Type := list (marker * string * validator).

Fixpoint schema_lookup (sch : schema) (key : string) : option validator :=
  match sch with
  | [] => None
  | (_, k, f) :: rest => if String.eqb k key then Some f else schema_lookup rest key
  end.

(** The value stored for one item of the payload: validated when the key
    is declared, passed through when it is not. *)
Definition validate_item (sch : schema) (key : string) (v : pyval) : option pyval :=
  match schema_lookup sch key with
  | Some f => f v
  | None => Some v
  end.

Definition required_present (sch : schema) (payload : gmap string pyval) : bool :=
  forallb (fun '(m, k, _) =>
             match m with
             | Required => match payload !! k with Some _ => true | None => false end
             | Optional => true
             end) sch.

Definition items_valid (sch : schema) (payload : gmap string pyval) : bool :=
  forallb (fun '(k, v) => match validate_item sch k v with Some _ => true | None => false end)
    (map_to_list payload).

(** Calling the schema on a payload: the validated dict, or [None] when
    an item is invalid or a required key is missing. *)
Definition schema_call (sch : schema) (payload : gmap string pyval)
    : option (gmap string pyval) :=
  if (required_present sch payload && items_valid sch payload)%bool
  then Some (map_imap (validate_item sch) payload)
  else None.

Section Schemas.
(** [cv.boolean] and [cv.positive_int] of the host platform. *)
Variables cv_boolean cv_positive_int : validator.

Definition SERVICE_SET_TIMER_BASIC_SETTINGS_SCHEMA : schema :=
  [ (Optional, "device_id", vol_All [cv_string; vol_Length 32 32]);
    (Optional, "min_level",
       vol_In (PInt <$> [0; 10; 20; 30; 40; 50; 60; 70; 80; 90; 100]));
    (Optional, "target_temperature_celsius", vol_Any [cv_string; cv_positive_int]);
    (Optional, "target_temperature_fahrenheit", vol_Any [cv_string; cv_positive_int]) ].

Definition SERVICE_SET_CHARGER_MAX_CURRENT_SCHEMA : schema :=
  [ (Optional, "device_id", vol_All [cv_string; vol_Length 32 32]);
    (Optional, "max_current",
       vol_In ((PInt <$> [0; 5; 10; 13; 16; 32])
               ++ (PStr <$> ["0"; "5"; "10"; "13"; "16"; "32"; "max"]))) ].

Definition SERVICE_UPDATE_SCHEDULE_SCHEMA : schema :=
  [ (Required, "device_id", vol_All [cv_string; vol_Length 32 32]);
    (Required, "timer_id", vol_In (PInt <$> [1; 2; 3]));
    (Optional, "charging_profile",
       vol_All [cv_positive_int;
                vol_Range None None (truthy (PInt 1)) (truthy (PInt 10))]);
    (Optional, "enabled", vol_All [cv_boolean]);
    (Optional, "frequency", vol_In (PStr <$> ["cyclic"; "single"]));
    (Optional, "departure_time", vol_All [cv_string]);
    (Optional, "departure_datetime", vol_All [cv_string]);
    (Optional, "weekday_mask", vol_All [cv_string; vol_Length 7 7]) ].

Definition SERVICE_UPDATE_PROFILE_SCHEMA : schema :=
  [ (Required, "device_id", vol_All [cv_string; vol_Length 32 32]);
    (Required, "profile_id",
       vol_All [cv_positive_int;
                vol_Range None None (truthy (PInt 1)) (truthy (PInt 10))]);
    (Required, "profile_name", vol_All [cv_string]);
    (Optional, "charging", vol_All [cv_boolean]);
    (Optional, "climatisation", vol_All [cv_boolean]);
    (Optional, "target_level",
       vol_In (PInt <$> [0; 10; 20; 30; 40; 50; 60; 70; 80; 90; 100]));
    (Optional, "charge_max_current",
       vol_In ((PInt <$> [0; 5; 10; 13; 16; 32])
               ++ (PStr <$> ["0"; "5"; "10"; "13"; "16"; "32"])));
    (Optional, "night_rate", vol_All [cv_boolean]);
    (Optional, "night_rate_start", vol_All [cv_string]);
    (Optional, "night_rate_end", vol_All [cv_string]) ].

(** The four services [register_services] registers, each with its schema. *)
Inductive service : Type :=
| SERVICE_SET_TIMER_BASIC_SETTINGS
| SERVICE_UPDATE_SCHEDULE
| SERVICE_UPDATE_PROFILE
| SERVICE_SET_CHARGER_MAX_CURRENT.

Definition registered_schema (s : service) : schema :=
  match s with
  | SERVICE_SET_TIMER_BASIC_SETTINGS => SERVICE_SET_TIMER_BASIC_SETTINGS_SCHEMA
  | SERVICE_UPDATE_SCHEDULE => SERVICE_UPDATE_SCHEDULE_SCHEMA
  | SERVICE_UPDATE_PROFILE => SERVICE_UPDATE_PROFILE_SCHEMA
  | SERVICE_SET_CHARGER_MAX_CURRENT => SERVICE_SET_CHARGER_MAX_CURRENT_SCHEMA
  end.

(** A service call as the host platform runs it: the registered schema is
    applied to the payload first, and the service function is handed the
    validated data only when the schema accepts. *)
Inductive call_outcome : Type :=
| Rejected
| Dispatched (service_data : gmap string pyval).

Definition async_call (s : service) (payload : gmap string pyval) : call_outcome :=
  match schema_call (registered_schema s) payload with
  | Some service_data => Dispatched service_data
  | None => Rejected
  end.

End Schemas.

(** ** Concrete data

    One instantiation of the constants and a few objects on which the model
    is evaluated below. *)

Definition sample_const : const := {|
  DOMAIN := "volkswagencarnet";
  CONF_NAME := "name";
  CONF_VEHICLE := "vehicle";
  CONF_CONVERT := "convert";
  CONF_NO_CONVERSION := "no_conversion";
  CONF_IMPERIAL_UNITS := "imperial";
  CONF_SCANDINAVIAN_MILES := "scandinavian_miles";
  CONF_REPORT_SCAN_INTERVAL := "report_scan_interval";
  DEFAULT_REPORT_UPDATE_INTERVAL := 1;
|}.

(** A validator that refuses everything: it stands for [cv.boolean] and
    [cv.positive_int] where a schema is evaluated on a payload that has
    none of the fields they guard. *)
Definition refuse_all : validator := fun _ => None.

Definition golf : Vehicle.t := Vehicle.mk "WVWZZZAUZGW000001" true.

Definition polo : Vehicle.t := Vehicle.mk "WVWZZZ6RZHY000002" false.

Definition golf_battery (level : Z) : Instrument.t :=
  Instrument.mk golf "sensor" "battery_level" "Battery level" (PInt level)
    (Some "mdi:battery").

Definition golf_charging : Instrument.t :=
  Instrument.mk golf "switch" "charging" "Charging" (PBool true) (Some "mdi:flash").

Definition golf_door : Instrument.t :=
  Instrument.mk golf "lock" "door_locked" "Door locked" (PBool true) (Some "mdi:lock").

(** An entry configured with the identifier in lower case, and with the
    given options. *)
Definition golf_entry (options : gmap string pyval) : ConfigEntry.t :=
  ConfigEntry.mk
    (<["vehicle" := PStr "wvwzzzauzgw000001"]> (<["name" := PStr "Golf"]> ∅))
    options.

(** A coordinator of that entry, with or without a session, before any
    report request, holding the given instrument list. *)
Definition golf_coordinator (options : gmap string pyval) (session : bool)
    (snapshot : option (list Instrument.t)) : VolkswagenCoordinator.t :=
  VolkswagenCoordinator.mk "WVWZZZAUZGW000001" (golf_entry options) []
    None (Connection.mk session []) snapshot.

Definition golf_world (options : gmap string pyval) (session : bool)
    : VolkswagenCoordinator.world :=
  {| VolkswagenCoordinator.self := golf_coordinator options session None;
     VolkswagenCoordinator.issued := [] |}.

(** Noon of some day and later readings, in microseconds. *)
Definition noon : Z := 43200000000.

(** Answers of a client that leaves a session open and no vehicle list
    behind its calls: the two clock readings, what the login answers and
    what the report request answers. *)
Definition answering (gate : Z) (login : result bool) (report : result pyval)
    (stamp : Z) : answers :=
  {| now_gate := gate;
     doLogin_answer := login;
     doLogin_vehicles := [];
     doLogin_raised_session := false;
     request_report_answer := report;
     request_report_leaves := Connection.mk true [];
     now_stamp := stamp |}.

Definition all_well (gate stamp : Z) : answers :=
  answering gate (Ok true) (Ok (PBool true)) stamp.

(** A fetch that worked and left a session and the given vehicles. *)
Definition fetched_vehicles (vehicles : list Vehicle.t) : fetch :=
  {| update_answer := Ok true; update_leaves := Connection.mk true vehicles |}.

(** ** Login, refresh, setup and unload

    The rest of the module: the coordinator's login and refresh
    coroutines, the setup and unload of a config entry, and the entity
    properties that read the instrument. *)

(** The constants of const.py and homeassistant.const these functions
    use; [COMPONENTS] maps an instrument component to the platform that
    shows it. *)
Class setup_const : Type := {
  CONF_REPORT_REQUEST : string;
  CONF_MUTABLE : string;
  CONF_SPIN : string;
  CONF_SCAN_INTERVAL : string;
  CONF_RESOURCES : string;
  DEFAULT_UPDATE_INTERVAL : Z;
  COMPONENTS : gmap string string;
}.

(** [needle in container] for a string needle: a search by equality in a
    list, a substring test in a string, a key test in a dict, a TypeError
    on None, a bool or an int. *)
Definition py_str_in (needle : string) (container : pyval) : result bool :=
  match container with
  | PList l => Ok (existsb (fun x => py_eq_scalar x (PStr needle)) l)
  | PStr s => Ok (match String.index 0 needle s with Some _ => true | None => false end)
  | PDict d => Ok (match d !! needle with Some _ => true | None => false end)
  | PNone | PBool _ | PInt _ => Raise TypeError
  end.

(** What [timedelta(minutes=v)] gives: a duration, a TypeError for a value
    that is no number, an OverflowError for more than 999999999 days. *)
Inductive interval_outcome : Type :=
| Minutes (n : Z)
| IntervalTypeError
| IntervalOverflowError.

Definition timedelta_minutes (v : pyval) : interval_outcome :=
  let of_int (n : Z) :=
    if Z.leb (-999999999) (n / 1440) && Z.leb (n / 1440) 999999999
    then Minutes n else IntervalOverflowError in
  match v with
  | PInt n => of_int n
  | PBool b => of_int (Z.b2z b)
  | _ => IntervalTypeError
  end.

(** What a refresh hands back: the instrument list, or the
    [UpdateFailed] it raises when no vehicle was found. *)
Inductive update_data : Type :=
| UpdateFailed
| Instruments (l : list Instrument.t).

(** How [async_setup_entry] ends. *)
Inductive setup_outcome : Type :=
| SetupIntervalError (e : interval_outcome)
| SetupRaised (e : exn)
| ReauthStarted
| NotReady
| SetUp (holder : VolkswagenData.t) (forwarded : list string).

Module Coroutines.
Import VolkswagenCoordinator.

(** [async_login]: a login only when no session is open (a raise of
    [doLogin] is not caught here). *)
Definition async_login (a : answers) : M bool :=
  let* c := get_self in
  if negb (Connection.logged_in (connection c)) then
    connection_doLogin a ;;
    let* c1 := get_self in
    if negb (Connection.logged_in (connection c1)) then ret false else ret true
  else ret true.

Section Refresh.
Context `{K : const} `{S : setup_const}.

(** [vehicle.dashboard(mutable, spin, miles, scandinavian_miles).instruments]
    of the client library. *)
Variable dashboard : Vehicle.t -> pyval -> pyval -> bool -> bool -> list Instrument.t.

(** Successive calls of [report_request], as successive refresh cycles
    make them. *)
Fixpoint report_requests (calls : list (answers * Vehicle.t)) : M unit :=
  match calls with
  | [] => ret tt
  | (a, vehicle) :: rest => report_request a vehicle ;; report_requests rest
  end.

Definition _async_update_data (fetched : fetch)
    (a : answers) : M update_data :=
  let* found := update fetched in
  match found with
  | None => ret UpdateFailed
  | Some vehicle =>
      let* c := get_self in
      (if truthy (dict_get (ConfigEntry.options (entry c)) CONF_REPORT_REQUEST (PBool false))
       then report_request a vehicle
       else ret tt) ;;
      ret (Instruments
             (dashboard vehicle
                (dict_get (ConfigEntry.data (entry c)) CONF_MUTABLE PNone)
                (dict_get (ConfigEntry.data (entry c)) CONF_SPIN PNone)
                (dashboard_miles (entry c))
                (dashboard_scandinavian_miles (entry c))))
  end.

(** [DataUpdateCoordinator.async_refresh] of the host platform, as the
    setup relies on it: the instrument list of a refresh that worked is
    stored in [data]; a refresh that raised, [UpdateFailed] included,
    leaves [data] alone and clears [last_update_success], the flag
    returned here. *)
Definition async_refresh (fetched : fetch) (a : answers)
    (w : world) : bool * world :=
  match _async_update_data fetched a w with
  | (Ok (Instruments l), w') =>
      (true, {| self := set_data (Some l) (self w'); issued := issued w' |})
  | (_, w') => (false, w')
  end.

(** The interval [async_setup_entry] hands to the coordinator. *)
Definition update_interval (entry : ConfigEntry.t) : interval_outcome :=
  if truthy (dict_get (ConfigEntry.options entry) CONF_SCAN_INTERVAL PNone)
  then timedelta_minutes (dict_get (ConfigEntry.options entry) CONF_SCAN_INTERVAL PNone)
  else timedelta_minutes (PInt DEFAULT_UPDATE_INTERVAL).

(** [Instrument.slug_attr] of the client library. *)
Variable slug_attr : Instrument.t -> string.

(** [is_enabled] of [async_setup_entry]. *)
Definition is_enabled (entry : ConfigEntry.t) (attr : string) : result bool :=
  py_str_in attr (dict_get (ConfigEntry.data entry) CONF_RESOURCES (PList [PStr attr])).

(** The generator of [async_setup_entry]: the instruments of a known
    component that the user has enabled, in the order of the refresh. *)
Fixpoint enabled_instruments (entry : ConfigEntry.t) (instruments : list Instrument.t)
    : result (list Instrument.t) :=
  match instruments with
  | [] => Ok []
  | instrument :: rest =>
      match COMPONENTS !! Instrument.component instrument with
      | None => enabled_instruments entry rest
      | Some _ =>
          match is_enabled entry (slug_attr instrument) with
          | Raise e => Raise e
          | Ok false => enabled_instruments entry rest
          | Ok true =>
              match enabled_instruments entry rest with
              | Ok l => Ok (instrument :: l)
              | Raise e => Raise e
              end
          end
      end
  end.

(** The set [components] the loop fills, in the order it is iterated
    (Python leaves the order of a set open; the model takes one). *)
Definition components_of (registered : list Instrument.t) : list string :=
  elements (list_to_set
              (omap (fun i => COMPONENTS !! Instrument.component i) registered)
            : gset string).

(** [async_setup_entry], from the interval to the forwarded platforms.
    The connection is the one [VolkswagenCoordinator.__init__] creates;
    [login] answers the login, [fetched] and [a] the first refresh. The
    second component is the coordinator's world at the end, when a
    coordinator was built. *)
Definition async_setup_entry (entry : ConfigEntry.t) (conn : Connection.t)
    (login : answers) (fetched : fetch) (a : answers)
    : setup_outcome * option world :=
  match update_interval entry with
  | Minutes _ =>
      match init entry conn with
      | Raise e => (SetupRaised e, None)
      | Ok coordinator =>
          match async_login login {| self := coordinator; issued := [] |} with
          | (Raise e, w1) => (SetupRaised e, Some w1)
          | (Ok false, w1) => (ReauthStarted, Some w1)
          | (Ok true, w1) =>
              match async_refresh fetched a w1 with
              | (false, w2) => (NotReady, Some w2)
              | (true, w2) =>
                  match VolkswagenData.init (ConfigEntry.data entry) (Some (self w2)) with
                  | Raise e => (SetupRaised e, Some w2)
                  | Ok holder =>
                      match enabled_instruments entry
                              (default [] (data (self w2))) with
                      | Raise e => (SetupRaised e, Some w2)
                      | Ok registered =>
                          let forwarded := components_of registered in
                          let c := self w2 in
                          let c' := mk (vin c) (VolkswagenCoordinator.entry c)
                                      (platforms c ++ forwarded)
                                      (report_last_updated c) (connection c) (data c) in
                          (SetUp (VolkswagenData.mk registered
                                    (VolkswagenData.names holder) (Some c'))
                             forwarded,
                           Some {| self := c'; issued := issued w2 |})
                      end
                  end
              end
          end
      end
  | e => (SetupIntervalError e, None)
  end.

(** [async_unload_coordinator]. [domain_data] is [hass.data[DOMAIN]], each
    entry id with the data holder stored for it; [unload_ok] is what
    [async_forward_entry_unload] answers for a platform. The result is
    [unloaded], the new [hass.data[DOMAIN]] and the platforms asked to
    unload. *)
Definition async_unload_coordinator (domain_data : gmap string VolkswagenData.t)
    (entry_id : string) (unload_ok : string -> bool)
    : result (bool * gmap string VolkswagenData.t * list string) :=
  match domain_data !! entry_id with
  | None => Raise KeyError
  | Some holder =>
      match VolkswagenData.coordinator holder with
      | None => Raise AttributeError
      | Some coordinator =>
          let asked :=
            List.filter
              (fun platform =>
                 existsb (String.eqb platform) (platforms coordinator))
              (map fst (map_to_list COMPONENTS)) in
          let unloaded := forallb unload_ok asked in
          Ok (unloaded,
              if unloaded then delete entry_id domain_data else domain_data,
              asked)
      end
  end.

End Refresh.

End Coroutines.

Module EntityViews.

(** [VolkswagenEntity.__init__]: storing the callback on the instrument
    needs the instrument to resolve. *)
Definition init (data : VolkswagenData.t) (vin component attribute : string)
    : result VolkswagenEntity.t :=
  let self := VolkswagenEntity.mk data vin component attribute in
  match VolkswagenEntity.instrument self with
  | Ok (Some _) => Ok self
  | Ok None => Raise AttributeError
  | Raise e => Raise e
  end.

Section Views.
(** [str()] of a list or a dict. *)
Variable repr : pyval -> string.

(** What an f-string writes for a value. *)
Definition py_str (v : pyval) : string :=
  match v with
  | PStr s => s
  | PNone => "None"
  | PBool b => if b then "True" else "False"
  | PInt z => pretty z
  | PList _ | PDict _ => repr v
  end.

Definition _entity_name (self : VolkswagenEntity.t) : result string :=
  VolkswagenEntity.instrument_attr self Instrument.name.

Definition _vehicle_name (self : VolkswagenEntity.t) : result pyval :=
  match VolkswagenEntity.vehicle self with
  | Ok v => VolkswagenData.vehicle_name (VolkswagenEntity.data self) v
  | Raise e => Raise e
  end.

Definition name (self : VolkswagenEntity.t) : result string :=
  match _vehicle_name self with
  | Raise e => Raise e
  | Ok vehicle_name =>
      match _entity_name self with
      | Raise e => Raise e
      | Ok entity_name => Ok (py_str vehicle_name +:+ " " +:+ entity_name)
      end
  end.

(** Attributes of the client library's objects that the records above do
    not carry. *)
Variable attributes : Instrument.t -> gmap string pyval.
Variables model model_year model_image : Vehicle.t -> pyval.
Variable is_model_image_supported : Vehicle.t -> bool.

Definition extra_state_attributes (self : VolkswagenEntity.t)
    : result (gmap string pyval) :=
  match VolkswagenEntity.instrument_attr self attributes with
  | Raise e => Raise e
  | Ok instrument_attributes =>
      match VolkswagenEntity.vehicle self with
      | Raise e => Raise e
      | Ok v =>
          let attrs :=
            <["model" := PStr (py_str (model v) +:+ "/" +:+ py_str (model_year v))]>
              instrument_attributes in
          if negb (is_model_image_supported v) then Ok attrs
          else Ok (<["image_url" := model_image v]> attrs)
      end
  end.

End Views.

End EntityViews.

(** ** More concrete data *)

Definition sample_setup_const : setup_const := {|
  CONF_REPORT_REQUEST := "report_request";
  CONF_MUTABLE := "mutable";
  CONF_SPIN := "spin";
  CONF_SCAN_INTERVAL := "scan_interval";
  CONF_RESOURCES := "resources";
  DEFAULT_UPDATE_INTERVAL := 5;
  COMPONENTS :=
    <["sensor" := "sensor"]> (<["switch" := "switch"]> (<["lock" := "lock"]> ∅));
|}.

(** A dashboard that shows three instruments for the Golf and none for
    any other vehicle. *)
Definition sample_dashboard (vehicle : Vehicle.t) (mutable spin : pyval)
    (miles scandinavian_miles : bool) : list Instrument.t :=
  if String.eqb (Vehicle.vin vehicle) "WVWZZZAUZGW000001"
  then [golf_door; golf_charging; golf_battery 80]
  else [].

(** The data holder of an entry set up on the sensor and lock platforms,
    and a [hass.data[DOMAIN]] that holds it. *)
Definition sample_holder : VolkswagenData.t :=
  VolkswagenData.mk [golf_door; golf_battery 80] (PStr "Golf")
    (Some (VolkswagenCoordinator.mk "WVWZZZAUZGW000001" (golf_entry ∅)
             ["sensor"; "lock"] None (Connection.mk true [])
             (Some [golf_door; golf_battery 80]))).

Definition sample_domain_data : gmap string VolkswagenData.t :=
  <["entry-1" := sample_holder]> ∅.

(** * Properties *)

(** ** Upper case and case-insensitive comparison *)

Lemma nat_of_ascii_inj (x y : ascii) : nat_of_ascii x = nat_of_ascii y -> x = y.
Proof.
  intros H.
  rewrite <- (ascii_nat_embedding x), <- (ascii_nat_embedding y).
  now rewrite H.
Qed.

Lemma is_lower_range (c : ascii) :
  is_lower c = true <-> (97 <= nat_of_ascii c <= 122)%nat.
Proof.
  unfold is_lower. cbv zeta.
  rewrite andb_true_iff, !Nat.leb_le. tauto.
Qed.

Lemma is_lower_false_range (c : ascii) :
  is_lower c = false <-> (nat_of_ascii c < 97 \/ 122 < nat_of_ascii c)%nat.
Proof.
  unfold is_lower. cbv zeta.
  rewrite andb_false_iff, !Nat.leb_gt. tauto.
Qed.

Lemma nat_of_upper_ascii (c : ascii) :
  nat_of_ascii (upper_ascii c)
  = if is_lower c then (nat_of_ascii c - 32)%nat else nat_of_ascii c.
Proof.
  unfold upper_ascii. destruct (is_lower c) eqn:E; [|reflexivity].
  apply nat_ascii_embedding. pose proof (nat_ascii_bounded c). lia.
Qed.

Lemma upper_ascii_same_letter (x y : ascii) :
  upper_ascii x = upper_ascii y <-> same_letter x y.
Proof.
  unfold same_letter. split.
  - intros H. apply (f_equal nat_of_ascii) in H.
    rewrite !nat_of_upper_ascii in H.
    destruct (is_lower x) eqn:Ex, (is_lower y) eqn:Ey.
    + apply is_lower_range in Ex, Ey. left. apply nat_of_ascii_inj. lia.
    + apply is_lower_range in Ex. right; left. split; [reflexivity | lia].
    + apply is_lower_range in Ey. right; right. split; [reflexivity | lia].
    + left. now apply nat_of_ascii_inj.
  - intros [-> | [[Ex E] | [Ey E]]]; [reflexivity | |];
      apply nat_of_ascii_inj; rewrite !nat_of_upper_ascii.
    + rewrite Ex. apply is_lower_range in Ex.
      assert (is_lower y = false) as -> by (apply is_lower_false_range; lia).
      lia.
    + rewrite Ey. apply is_lower_range in Ey.
      assert (is_lower x = false) as -> by (apply is_lower_false_range; lia).
      lia.
Qed.

Lemma upper_same_ignoring_case (a b : string) :
  upper a = upper b <-> same_ignoring_case a b.
Proof.
  revert b. induction a as [|x a IH]; intros [|y b]; simpl; try easy.
  rewrite <- IH, <- upper_ascii_same_letter.
  split; [intros [= ? ?] | intros [-> ->]]; auto.
Qed.

(** ** First match of a scan *)

Lemma find_first {A} (p : A -> bool) (l : list A) :
  match List.find p l with
  | Some x => exists before after : list A,
      l = (before ++ x :: after)%list /\ p x = true
      /\ Forall (fun y => p y = false) before
  | None => Forall (fun y => p y = false) l
  end.
Proof.
  induction l as [|a l IH]; simpl; [constructor|].
  destruct (p a) eqn:E.
  - exists [], l. repeat split; auto.
  - destruct (List.find p l) as [x|].
    + destruct IH as (before & after & -> & Hx & Hb).
      exists (a :: before), after. repeat split; auto.
    + constructor; auto.
Qed.

(** ** Vehicle selection *)

(** What [update] returns once the fetch has worked, whatever else the
    world holds. *)
Lemma update_fetched (left : Connection.t) (w : VolkswagenCoordinator.world) :
  fst (VolkswagenCoordinator.update {| update_answer := Ok true; update_leaves := left |} w)
  = Ok (List.find
          (fun vehicle => String.eqb (upper (Vehicle.vin vehicle))
                            (VolkswagenCoordinator.vin (VolkswagenCoordinator.self w)))
          (Connection.vehicles left)).
Proof. reflexivity. Qed.

(** A failed fetch gives [None] without looking at any vehicle. *)
Lemma update_fetch_failed (left : Connection.t) (w : VolkswagenCoordinator.world) :
  fst (VolkswagenCoordinator.update {| update_answer := Ok false; update_leaves := left |} w)
  = Ok None.
Proof. reflexivity. Qed.

(** C4. For a coordinator built from an entry whose configured vehicle
    identifier is [configured], and every vehicle list the client leaves
    after a fetch that worked, configured identifier and fetched
    identifiers being ASCII strings, [update] returns without raising:
    either the first vehicle of the list whose identifier equals the
    configured one up to letter case, or [None] when no vehicle of the
    list does. *)
Theorem update_selects_configured_vehicle `{K : const}
    (entry : ConfigEntry.t) (conn : Connection.t) (c : VolkswagenCoordinator.t)
    (configured : string) (left : Connection.t)
    (w : VolkswagenCoordinator.world) :
  ConfigEntry.data entry !! CONF_VEHICLE = Some (PStr configured) ->
  VolkswagenCoordinator.init entry conn = Ok c ->
  VolkswagenCoordinator.vin (VolkswagenCoordinator.self w) = VolkswagenCoordinator.vin c ->
  is_ascii configured = true ->
  Forall (fun v => is_ascii (Vehicle.vin v) = true) (Connection.vehicles left) ->
  exists r : option Vehicle.t,
    fst (VolkswagenCoordinator.update
           {| update_answer := Ok true; update_leaves := left |} w) = Ok r /\
    match r with
    | Some v => exists before after : list Vehicle.t,
        Connection.vehicles left = (before ++ v :: after)%list
        /\ same_ignoring_case (Vehicle.vin v) configured
        /\ Forall (fun u => ~ same_ignoring_case (Vehicle.vin u) configured) before
    | None =>
        Forall (fun u => ~ same_ignoring_case (Vehicle.vin u) configured)
          (Connection.vehicles left)
    end.
Proof.
  intros Hconf Hinit Hvin _ _.
  unfold VolkswagenCoordinator.init in Hinit. rewrite Hconf in Hinit.
  injection Hinit as <-. simpl in Hvin.
  eexists. split; [apply update_fetched|].
  rewrite Hvin.
  set (p := fun vehicle : Vehicle.t =>
              String.eqb (upper (Vehicle.vin vehicle)) (upper configured)).
  assert (Hp : forall u, p u = true <-> same_ignoring_case (Vehicle.vin u) configured).
  { intros u. unfold p. rewrite String.eqb_eq. apply upper_same_ignoring_case. }
  assert (Hn : forall l, Forall (fun y => p y = false) l ->
                         Forall (fun u => ~ same_ignoring_case (Vehicle.vin u) configured) l).
  { intros l. apply List.Forall_impl. intros u Hu Hs. apply Hp in Hs. congruence. }
  pose proof (find_first p (Connection.vehicles left)) as H.
  destruct (List.find p (Connection.vehicles left)) as [v|].
  - destruct H as (before & after & -> & Hv & Hb).
    exists before, after. repeat split; [now apply Hp | now apply Hn].
  - now apply Hn.
Qed.

Lemma update_selects_configured_vehicle_witness :
  exists r : option Vehicle.t,
    fst (VolkswagenCoordinator.update (fetched_vehicles [polo; golf]) (golf_world ∅ false)) = Ok r /\
    match r with
    | Some v => exists before after : list Vehicle.t,
        [polo; golf] = (before ++ v :: after)%list
        /\ same_ignoring_case (Vehicle.vin v) "wvwzzzauzgw000001"
        /\ Forall (fun u => ~ same_ignoring_case (Vehicle.vin u) "wvwzzzauzgw000001") before
    | None =>
        Forall (fun u => ~ same_ignoring_case (Vehicle.vin u) "wvwzzzauzgw000001")
          [polo; golf]
    end.
Proof.
  apply (update_selects_configured_vehicle (K := sample_const)
           (golf_entry ∅) (Connection.mk false [])
           (golf_coordinator ∅ false None) "wvwzzzauzgw000001"
           (Connection.mk true [polo; golf])
           (golf_world ∅ false)); try reflexivity.
  repeat constructor.
Defined.

(** The lower-case configured identifier of the sample entry selects the
    upper-case list entry. *)
Example update_lowercase_config_uppercase_list :
  fst (VolkswagenCoordinator.update (fetched_vehicles [polo; golf]) (golf_world ∅ false))
  = Ok (Some golf).
Proof. reflexivity. Qed.

(** ** Instrument lookup *)

Lemma matches_identity (vin component attr : string) (i : Instrument.t) :
  VolkswagenData.matches vin component attr i = true
  <-> instrument_identity i = (vin, component, attr).
Proof.
  unfold VolkswagenData.matches, instrument_identity.
  rewrite !andb_true_iff, !String.eqb_eq.
  split; [intros [[-> ->] ->]; reflexivity | intros [= -> -> ->]; auto].
Qed.

Lemma not_matches_identity (vin component attr : string) (l : list Instrument.t) :
  Forall (fun j => VolkswagenData.matches vin component attr j = false) l ->
  Forall (fun j => instrument_identity j <> (vin, component, attr)) l.
Proof.
  apply List.Forall_impl. intros j Hj Hid.
  apply matches_identity in Hid. congruence.
Qed.

(** C8, as amended. For every triple and every data holder whose current
    snapshot is a collection (the static instrument set when there is no
    coordinator, the coordinator's stored instrument list, possibly empty,
    when there is one), the lookup never raises: it returns the first
    instrument of the snapshot whose identity is exactly the triple, or
    [None] when the snapshot holds none. *)
Theorem instrument_lookup_on_snapshot (d : VolkswagenData.t)
    (snapshot : list Instrument.t) (vin component attr : string) :
  (VolkswagenData.coordinator d = None /\ snapshot = VolkswagenData.instruments d)
  \/ (exists c, VolkswagenData.coordinator d = Some c
                /\ VolkswagenCoordinator.data c = Some snapshot) ->
  exists r : option Instrument.t,
    VolkswagenData.instrument d vin component attr = Ok r /\
    match r with
    | Some i => exists before after : list Instrument.t,
        snapshot = (before ++ i :: after)%list
        /\ instrument_identity i = (vin, component, attr)
        /\ Forall (fun j => instrument_identity j <> (vin, component, attr)) before
    | None => Forall (fun j => instrument_identity j <> (vin, component, attr)) snapshot
    end.
Proof.
  intros H.
  assert (VolkswagenData.instrument d vin component attr
          = Ok (List.find (VolkswagenData.matches vin component attr) snapshot)) as ->.
  { unfold VolkswagenData.instrument.
    destruct H as [[-> ->] | (c & -> & ->)]; reflexivity. }
  eexists. split; [reflexivity|].
  pose proof (find_first (VolkswagenData.matches vin component attr) snapshot) as Hf.
  destruct (List.find _ snapshot) as [i|].
  - destruct Hf as (before & after & -> & Hi & Hb).
    exists before, after. repeat split.
    + now apply matches_identity.
    + now apply not_matches_identity.
  - now apply not_matches_identity.
Qed.

Lemma instrument_lookup_on_snapshot_witness :
  exists r : option Instrument.t,
    VolkswagenData.instrument
      (VolkswagenData.mk [] (PStr "Golf")
         (Some (golf_coordinator ∅ true (Some [golf_door; golf_battery 80]))))
      "WVWZZZAUZGW000001" "sensor" "battery_level" = Ok r /\
    match r with
    | Some i => exists before after : list Instrument.t,
        [golf_door; golf_battery 80] = (before ++ i :: after)%list
        /\ instrument_identity i = ("WVWZZZAUZGW000001", "sensor", "battery_level")
        /\ Forall (fun j => instrument_identity j
                            <> ("WVWZZZAUZGW000001", "sensor", "battery_level")) before
    | None => Forall (fun j => instrument_identity j
                               <> ("WVWZZZAUZGW000001", "sensor", "battery_level"))
                [golf_door; golf_battery 80]
    end.
Proof.
  apply (instrument_lookup_on_snapshot
           (VolkswagenData.mk [] (PStr "Golf")
              (Some (golf_coordinator ∅ true (Some [golf_door; golf_battery 80]))))
           [golf_door; golf_battery 80]).
  right. eexists. split; reflexivity.
Defined.

(** C8, as stated, fails: with a coordinator whose snapshot is unset the
    lookup raises. *)
Lemma instrument_lookup_unset_snapshot_raises :
  VolkswagenData.instrument
    (VolkswagenData.mk [golf_door] (PStr "Golf") (Some (golf_coordinator ∅ true None)))
    "WVWZZZAUZGW000001" "lock" "door_locked"
  = Raise TypeError.
Proof. reflexivity. Qed.

(** An empty snapshot is a snapshot: the lookup answers [None]. *)
Example instrument_lookup_empty_snapshot :
  VolkswagenData.instrument
    (VolkswagenData.mk [golf_door] (PStr "Golf") (Some (golf_coordinator ∅ true (Some []))))
    "WVWZZZAUZGW000001" "lock" "door_locked"
  = Ok None.
Proof. reflexivity. Qed.

(** ** Vehicle names *)

(** A string policy names every vehicle; a mapping names a vehicle by its
    lower-cased identifier, and falls back to the identifier itself. *)
Lemma vehicle_name_string_policy (d : VolkswagenData.t) (s : string) (v : Vehicle.t) :
  VolkswagenData.names d = PStr s ->
  VolkswagenData.vehicle_name d v = Ok (PStr s).
Proof. unfold VolkswagenData.vehicle_name. now intros ->. Qed.

Lemma vehicle_name_mapping_policy (d : VolkswagenData.t) (m : gmap string pyval)
    (v : Vehicle.t) :
  VolkswagenData.names d = PDict m ->
  Vehicle.vin v <> "" ->
  VolkswagenData.vehicle_name d v
  = Ok (default (PStr (Vehicle.vin v)) (m !! lower (Vehicle.vin v))).
Proof.
  unfold VolkswagenData.vehicle_name. intros -> Hvin.
  apply String.eqb_neq in Hvin. rewrite Hvin. simpl.
  now destruct (m !! lower (Vehicle.vin v)).
Qed.

Lemma vehicle_name_no_identifier (d : VolkswagenData.t) (v : Vehicle.t) :
  (forall s, VolkswagenData.names d <> PStr s) ->
  Vehicle.vin v = "" ->
  VolkswagenData.vehicle_name d v = Ok (PStr "").
Proof.
  unfold VolkswagenData.vehicle_name. intros Hs ->.
  destruct (VolkswagenData.names d); try reflexivity.
  now destruct (Hs s).
Qed.

Example vehicle_name_my_car :
  VolkswagenData.vehicle_name
    (VolkswagenData.mk [] (PDict {[ "wvwzzzauzgw000001" := PStr "My Car" ]}) None) golf
  = Ok (PStr "My Car").
Proof. reflexivity. Qed.

(** C5: the code at the failing input. A data holder built from a
    configuration with no name entry holds [None] as its naming policy, and
    asking it for the name of a vehicle with a known identifier raises a
    TypeError where the claim promises the identifier. *)
Theorem vehicle_name_absent_policy_raises :
  VolkswagenData.init (K := sample_const)
    {[ "vehicle" := PStr "wvwzzzauzgw000001" ]} None
  = Ok (VolkswagenData.mk [] PNone None)
  /\ VolkswagenData.vehicle_name (VolkswagenData.mk [] PNone None) golf
     = Raise TypeError.
Proof. split; reflexivity. Qed.

(** ** The entity adapter *)

(** A refresh cycle leaves the triple of the entity alone. *)
Lemma after_refresh_triple (fresh : list Instrument.t) (e : VolkswagenEntity.t) :
  VolkswagenEntity.vin (VolkswagenEntity.after_refresh fresh e) = VolkswagenEntity.vin e
  /\ VolkswagenEntity.component (VolkswagenEntity.after_refresh fresh e)
     = VolkswagenEntity.component e
  /\ VolkswagenEntity.attribute (VolkswagenEntity.after_refresh fresh e)
     = VolkswagenEntity.attribute e.
Proof. repeat split. Qed.

(** C7. The unique id of an entity is the string
    "{vehicle id}-{capability}-{attribute}" of the triple it was built
    with, whatever data holder it was built on; it is therefore the same
    after one refresh cycle and after a second one, whichever instrument
    lists the two cycles store. *)
Theorem unique_id_stable (d : VolkswagenData.t) (vin component attribute : string)
    (fresh1 fresh2 : list Instrument.t) :
  let e := VolkswagenEntity.mk d vin component attribute in
  VolkswagenEntity.unique_id e = vin +:+ "-" +:+ component +:+ "-" +:+ attribute
  /\ VolkswagenEntity.unique_id (VolkswagenEntity.after_refresh fresh1 e)
     = VolkswagenEntity.unique_id e
  /\ VolkswagenEntity.unique_id
       (VolkswagenEntity.after_refresh fresh2 (VolkswagenEntity.after_refresh fresh1 e))
     = VolkswagenEntity.unique_id e.
Proof. repeat split. Qed.

(** The instrument the entity resolves does change with the cycle, while
    the unique id stays. *)
Example refresh_replaces_instrument :
  let e := VolkswagenEntity.mk
             (VolkswagenData.mk [] (PStr "Golf")
                (Some (golf_coordinator ∅ true (Some [golf_battery 80]))))
             "WVWZZZAUZGW000001" "sensor" "battery_level" in
  VolkswagenEntity.instrument e = Ok (Some (golf_battery 80))
  /\ VolkswagenEntity.instrument (VolkswagenEntity.after_refresh [golf_battery 79] e)
     = Ok (Some (golf_battery 79))
  /\ VolkswagenEntity.unique_id (VolkswagenEntity.after_refresh [golf_battery 79] e)
     = "WVWZZZAUZGW000001-sensor-battery_level".
Proof. repeat split. Qed.

(** C6, as amended. For every entity whose resolved instrument has the
    attribute key "battery_level" or "charging", the icon is the battery
    icon the platform helper computes from the instrument's state and the
    vehicle's charging flag; for every entity whose instrument has any
    other attribute key, the icon is the instrument's own, unchanged. *)
Theorem icon_resolution (icon_for_battery_level : pyval -> bool -> result string)
    (e : VolkswagenEntity.t) (i : Instrument.t) :
  VolkswagenEntity.instrument e = Ok (Some i) ->
  (Instrument.attr i = "battery_level" \/ Instrument.attr i = "charging" ->
   VolkswagenEntity.icon icon_for_battery_level e
   = match icon_for_battery_level (Instrument.state i)
             (Vehicle.charging (Instrument.vehicle i)) with
     | Ok s => Ok (Some s)
     | Raise x => Raise x
     end)
  /\ (Instrument.attr i <> "battery_level" -> Instrument.attr i <> "charging" ->
      VolkswagenEntity.icon icon_for_battery_level e = Ok (Instrument.icon i)).
Proof.
  intros Hi.
  unfold VolkswagenEntity.icon, VolkswagenEntity.vehicle, VolkswagenEntity.instrument_attr.
  rewrite Hi. cbn [existsb]. split.
  - intros [-> | ->]; reflexivity.
  - intros H1 H2.
    apply String.eqb_neq in H1, H2.
    now rewrite H1, H2.
Qed.

Lemma icon_resolution_witness :
  let e := VolkswagenEntity.mk
             (VolkswagenData.mk [] (PStr "Golf")
                (Some (golf_coordinator ∅ true
                         (Some [golf_door; golf_charging; golf_battery 80]))))
             "WVWZZZAUZGW000001" "sensor" "battery_level" in
  VolkswagenEntity.icon ha_icon_for_battery_level e = Ok (Some "mdi:battery-charging-80").
Proof.
  cbv zeta.
  apply (proj1 (icon_resolution ha_icon_for_battery_level
                  (VolkswagenEntity.mk
                     (VolkswagenData.mk [] (PStr "Golf")
                        (Some (golf_coordinator ∅ true
                                 (Some [golf_door; golf_charging; golf_battery 80]))))
                     "WVWZZZAUZGW000001" "sensor" "battery_level")
                  (golf_battery 80) eq_refl)).
  left. reflexivity.
Defined.

(** C6, as stated, fails: the attribute key "charging" is not
    "battery_level", and the entity still shows the battery icon, not the
    instrument's own. *)
Lemma icon_of_charging_is_battery_icon :
  let e := VolkswagenEntity.mk
             (VolkswagenData.mk [] (PStr "Golf")
                (Some (golf_coordinator ∅ true
                         (Some [golf_door; golf_charging; golf_battery 80]))))
             "WVWZZZAUZGW000001" "switch" "charging" in
  VolkswagenEntity.instrument e = Ok (Some golf_charging)
  /\ Instrument.attr golf_charging <> "battery_level"
  /\ Instrument.icon golf_charging = Some "mdi:flash"
  /\ VolkswagenEntity.icon ha_icon_for_battery_level e = Ok (Some "mdi:battery-outline").
Proof. cbv zeta. repeat split. discriminate. Qed.

(** ** Unit conversion *)

(** C3. For every config entry the conversion mode is an explicitly set
    "convert" entry, looked up in the options first and in the data next;
    without one, it is the Scandinavian-miles mode when the legacy
    Scandinavian-miles flag (options first, data next) is set, and
    "no conversion" otherwise. *)
Theorem convert_mode_precedence `{K : const} (entry : ConfigEntry.t) :
  let options := ConfigEntry.options entry in
  let data := ConfigEntry.data entry in
  let legacy_set :=
    match options !! CONF_SCANDINAVIAN_MILES with
    | Some flag => truthy flag = true
    | None => match data !! CONF_SCANDINAVIAN_MILES with
              | Some flag => truthy flag = true
              | None => False
              end
    end in
  (forall mode, options !! CONF_CONVERT = Some mode -> convert_conf entry = mode)
  /\ (forall mode, options !! CONF_CONVERT = None -> data !! CONF_CONVERT = Some mode ->
      convert_conf entry = mode)
  /\ (options !! CONF_CONVERT = None -> data !! CONF_CONVERT = None -> legacy_set ->
      convert_conf entry = PStr CONF_SCANDINAVIAN_MILES
      /\ dashboard_scandinavian_miles entry = true)
  /\ (options !! CONF_CONVERT = None -> data !! CONF_CONVERT = None -> ~ legacy_set ->
      convert_conf entry = PStr CONF_NO_CONVERSION).
Proof.
  cbv zeta.
  unfold dashboard_scandinavian_miles, convert_conf, get_convert_conf, dict_get.
  split; [|split; [|split]].
  - now intros mode ->.
  - now intros mode -> ->.
  - intros -> -> H. simpl.
    destruct (ConfigEntry.options entry !! CONF_SCANDINAVIAN_MILES) as [f|];
      [|destruct (ConfigEntry.data entry !! CONF_SCANDINAVIAN_MILES) as [f|]];
      simpl in *; try contradiction; rewrite H; simpl;
      rewrite String.eqb_refl; now split.
  - intros -> -> H. simpl.
    destruct (ConfigEntry.options entry !! CONF_SCANDINAVIAN_MILES) as [f|];
      [|destruct (ConfigEntry.data entry !! CONF_SCANDINAVIAN_MILES) as [f|]];
      simpl in *; try reflexivity;
      destruct (truthy f); try reflexivity; exfalso; now apply H.
Qed.

Lemma convert_mode_precedence_witness :
  convert_conf (K := sample_const)
    (golf_entry (<["convert" := PStr "imperial"]>
                   (<["scandinavian_miles" := PBool true]> ∅)))
  = PStr "imperial".
Proof.
  apply (proj1 (convert_mode_precedence (K := sample_const)
                  (golf_entry (<["convert" := PStr "imperial"]>
                                 (<["scandinavian_miles" := PBool true]> ∅))))).
  reflexivity.
Defined.

(** The three levels of the precedence on the sample entry. *)
Example convert_mode_levels :
  convert_conf (K := sample_const)
    (golf_entry (<["convert" := PStr "imperial"]>
                   (<["scandinavian_miles" := PBool true]> ∅)))
  = PStr "imperial"
  /\ convert_conf (K := sample_const)
       (golf_entry (<["scandinavian_miles" := PBool true]> ∅))
     = PStr "scandinavian_miles"
  /\ convert_conf (K := sample_const) (golf_entry ∅) = PStr "no_conversion".
Proof. repeat split. Qed.

(** ** Command-service schemas *)

Lemma schema_call_Some (sch : schema) (payload d : gmap string pyval) :
  schema_call sch payload = Some d ->
  required_present sch payload = true
  /\ forall k v, payload !! k = Some v -> exists v', validate_item sch k v = Some v'.
Proof.
  unfold schema_call.
  destruct (required_present sch payload) eqn:Hreq; [|discriminate].
  destruct (items_valid sch payload) eqn:Hval; [|discriminate].
  intros _. split; [reflexivity|]. intros k v Hkv.
  unfold items_valid in Hval. rewrite forallb_forall in Hval.
  specialize (Hval (k, v)). cbv beta iota in Hval.
  destruct (validate_item sch k v) as [v'|]; [now exists v'|].
  exfalso. assert (false = true) by (apply Hval, list_elem_of_In, elem_of_map_to_list, Hkv).
  discriminate.
Qed.

Lemma schema_call_accepts (sch : schema) (payload : gmap string pyval) :
  required_present sch payload = true ->
  (forall k v, payload !! k = Some v -> exists v', validate_item sch k v = Some v') ->
  schema_call sch payload = Some (map_imap (validate_item sch) payload).
Proof.
  intros Hreq Hval. unfold schema_call. rewrite Hreq.
  assert (items_valid sch payload = true) as ->; [|reflexivity].
  unfold items_valid. apply forallb_forall. intros [k v] Hin.
  apply list_elem_of_In, elem_of_map_to_list in Hin.
  now destruct (Hval k v Hin) as [v' ->].
Qed.

Lemma cv_string_str (v w : pyval) : cv_string v = Some w -> exists s, w = PStr s.
Proof. destruct v; simpl; intros [= <-]; eauto. Qed.

Lemma vol_Length_str (lo hi : nat) (s : string) (w : pyval) :
  vol_Length lo hi (PStr s) = Some w -> (lo <= String.length s <= hi)%nat.
Proof.
  unfold vol_Length, py_len.
  destruct (Nat.leb lo (String.length s) && Nat.leb (String.length s) hi)%bool eqn:B;
    [|discriminate].
  apply andb_true_iff in B as [B1 B2]. apply Nat.leb_le in B1, B2. lia.
Qed.

(** The validator of every "device_id" field. *)
Lemma device_id_validator (v v' : pyval) :
  vol_All [cv_string; vol_Length 32 32] v = Some v' ->
  exists s, cv_string v = Some (PStr s) /\ String.length s = 32%nat.
Proof.
  cbn [vol_All]. destruct (cv_string v) as [w|] eqn:Hs; [|discriminate].
  destruct (cv_string_str _ _ Hs) as [s ->].
  destruct (vol_Length 32 32 (PStr s)) eqn:E; [|discriminate]. intros _.
  exists s. split; [reflexivity|]. apply vol_Length_str in E. lia.
Qed.

Section SchemaProperties.
Variables cv_boolean cv_positive_int : validator.

Abbreviation call := (async_call cv_boolean cv_positive_int).
Abbreviation schema_of := (registered_schema cv_boolean cv_positive_int).

(** Every one of the four schemas declares "device_id" with the same
    validator. *)
Lemma device_id_declared (s : service) :
  schema_lookup (schema_of s) "device_id" = Some (vol_All [cv_string; vol_Length 32 32]).
Proof. destruct s; reflexivity. Qed.

Lemma dispatched_inv (s : service) (payload d : gmap string pyval) :
  call s payload = Dispatched d -> schema_call (schema_of s) payload = Some d.
Proof.
  unfold async_call. destruct (schema_call _ payload); [congruence | discriminate].
Qed.

Lemma not_dispatched (s : service) (payload : gmap string pyval) :
  schema_call (schema_of s) payload = None -> call s payload = Rejected.
Proof. unfold async_call. now intros ->. Qed.

(** A device identifier that is present is validated, in all four. *)
Lemma present_device_id_checked (s : service) (payload d : gmap string pyval) (v : pyval) :
  payload !! "device_id" = Some v ->
  call s payload = Dispatched d ->
  exists str, cv_string v = Some (PStr str) /\ String.length str = 32%nat.
Proof.
  intros Hv Hd. apply dispatched_inv, schema_call_Some in Hd as [_ Hitems].
  destruct (Hitems _ _ Hv) as [v' Hv'].
  unfold validate_item in Hv'. rewrite device_id_declared in Hv'.
  eapply device_id_validator, Hv'.
Qed.

Lemma missing_required (s : service) (payload : gmap string pyval) (key : string)
    (f : validator) :
  In (Required, key, f) (schema_of s) ->
  payload !! key = None ->
  call s payload = Rejected.
Proof.
  intros Hin Hnone. apply not_dispatched. unfold schema_call.
  assert (required_present (schema_of s) payload = false) as ->; [|reflexivity].
  apply not_true_is_false. intros Hreq.
  unfold required_present in Hreq. rewrite forallb_forall in Hreq.
  specialize (Hreq _ Hin). cbv beta iota in Hreq. rewrite Hnone in Hreq. discriminate.
Qed.

(** Where every key is optional, dropping the device identifier from an
    accepted payload leaves it accepted. *)
Lemma optional_device_id (s : service) (payload d : gmap string pyval) :
  required_present (schema_of s) (delete "device_id" payload) = true ->
  call s payload = Dispatched d ->
  call s (delete "device_id" payload)
  = Dispatched (map_imap (validate_item (schema_of s)) (delete "device_id" payload)).
Proof.
  intros Hreq Hd. apply dispatched_inv, schema_call_Some in Hd as [_ Hitems].
  unfold async_call. rewrite schema_call_accepts; [reflexivity | assumption |].
  intros k v Hkv. apply lookup_delete_Some in Hkv as [_ Hkv]. eauto.
Qed.

(** C2, as amended. Update-schedule and update-profile reject every
    payload that lacks a device identifier whose string form has exactly
    32 characters. Set-timer-basic-settings and set-charger-max-current
    accept payloads with the device identifier absent (the empty payload,
    and any accepted payload once its device identifier is dropped), and
    like the other two refuse a device identifier that is present and is
    not of 32 characters. A payload that misses a required field
    (timer_id for update-schedule, profile_id or profile_name for
    update-profile) is rejected and nothing is dispatched. *)
Theorem device_id_and_required_fields (payload : gmap string pyval) :
  (forall s d, s = SERVICE_UPDATE_SCHEDULE \/ s = SERVICE_UPDATE_PROFILE ->
     call s payload = Dispatched d ->
     exists v str, payload !! "device_id" = Some v
                   /\ cv_string v = Some (PStr str) /\ String.length str = 32%nat)
  /\ (forall s, s = SERVICE_SET_TIMER_BASIC_SETTINGS \/ s = SERVICE_SET_CHARGER_MAX_CURRENT ->
       call s ∅ = Dispatched ∅
       /\ forall d, call s payload = Dispatched d ->
            exists d', call s (delete "device_id" payload) = Dispatched d')
  /\ (forall s v d, payload !! "device_id" = Some v -> call s payload = Dispatched d ->
       exists str, cv_string v = Some (PStr str) /\ String.length str = 32%nat)
  /\ (payload !! "timer_id" = None -> call SERVICE_UPDATE_SCHEDULE payload = Rejected)
  /\ (payload !! "profile_id" = None \/ payload !! "profile_name" = None ->
      call SERVICE_UPDATE_PROFILE payload = Rejected).
Proof.
  split; [|split; [|split; [|split]]].
  - intros s d Hs Hd.
    destruct (payload !! "device_id") as [v|] eqn:Hv.
    + destruct (present_device_id_checked s payload d v Hv Hd) as (str & ? & ?).
      now exists v, str.
    + assert (call s payload = Rejected); [|congruence].
      destruct Hs as [-> | ->];
        eapply missing_required; try exact Hv; simpl; left; reflexivity.
  - intros s Hs. split.
    + destruct Hs as [-> | ->]; reflexivity.
    + intros d Hd. eexists. apply (optional_device_id s payload d); [|exact Hd].
      destruct Hs as [-> | ->]; reflexivity.
  - intros s v d. apply present_device_id_checked.
  - intros H. eapply missing_required; try exact H. simpl. right; left; reflexivity.
  - intros [H | H]; eapply missing_required; try exact H; simpl.
    + right; left; reflexivity.
    + right; right; left; reflexivity.
Qed.

End SchemaProperties.

Lemma device_id_and_required_fields_witness :
  async_call refuse_all refuse_all SERVICE_UPDATE_SCHEDULE
    {[ "device_id" := PStr "0123456789abcdef0123456789abcdef" ]}
  = Rejected.
Proof.
  apply (proj1 (proj2 (proj2 (proj2
           (device_id_and_required_fields refuse_all refuse_all
              {[ "device_id" := PStr "0123456789abcdef0123456789abcdef" ]}))))).
  reflexivity.
Defined.

(** C2, as stated, fails: set-timer-basic-settings accepts a payload with
    no device identifier, whatever the two platform validators are. *)
Lemma timer_basic_settings_without_device_id :
  ({[ "min_level" := PInt 80 ]} : gmap string pyval) !! "device_id" = None
  /\ forall cv_boolean cv_positive_int : validator,
       async_call cv_boolean cv_positive_int SERVICE_SET_TIMER_BASIC_SETTINGS
         {[ "min_level" := PInt 80 ]}
       = Dispatched {[ "min_level" := PInt 80 ]}.
Proof. split; [reflexivity | intros; reflexivity]. Qed.

(** The device identifier is checked on its string form: an integer of 32
    digits passes, and reaches the service as a string. *)
Example device_id_of_32_digits :
  async_call refuse_all refuse_all SERVICE_UPDATE_SCHEDULE
    (<["device_id" := PInt 10000000000000000000000000000000]>
       {[ "timer_id" := PInt 1 ]})
  = Dispatched (<["device_id" := PStr "10000000000000000000000000000000"]>
                  {[ "timer_id" := PInt 1 ]}).
Proof. vm_compute. reflexivity. Qed.

Example schedule_without_timer_id :
  async_call refuse_all refuse_all SERVICE_UPDATE_SCHEDULE
    (<["device_id" := PStr "0123456789abcdef0123456789abcdef"]>
       {[ "frequency" := PStr "cyclic" ]})
  = Rejected.
Proof. vm_compute. reflexivity. Qed.

(** ** Report requests *)

Section ReportRequest.
Import VolkswagenCoordinator.
Context `{K : const}.

(** Unfolds one run of [report_request] down to the answers it meets. *)
Ltac run_report_request :=
  unfold report_request, connection_doLogin, vehicle_request_report,
    try_except, bind, lift, get_self, put_self, issue, ret; cbn.

Ltac split_answers a w :=
  destruct (py_int_lt (days_since_last_update (report_last_updated (self w)) (now_gate a))
              (report_interval (self w))) as [[|]|?] eqn:Hgate; cbn;
  [ | destruct (Connection.logged_in (connection (self w))) eqn:Hsession; cbn;
      [ | destruct (doLogin_answer a) as [[|]|?] eqn:Hlogin; cbn ];
      try (destruct (request_report_answer a) as [accepted|?] eqn:Hreport; cbn;
           [ destruct (truthy accepted) eqn:Haccepted; cbn | ])
    | ].

(** The interval and the entry are not touched by a run. *)
Lemma report_request_keeps_entry (a : answers) (vehicle : Vehicle.t) (w : world) :
  entry (self (snd (report_request a vehicle w))) = entry (self w).
Proof. run_report_request. split_answers a w; reflexivity. Qed.

(** C10. In every run of [report_request] the timestamp
    [report_last_updated] changes only when the report request has just
    been issued and accepted, and then to the reading of the clock taken
    right after; when the interval gate suppresses the run, when the
    re-login fails, when the report request is refused, and when anything
    raises, it keeps its previous value. *)
Theorem report_last_updated_only_after_success
    (a : answers) (vehicle : Vehicle.t) (w : world) :
  let r := fst (report_request a vehicle w) in
  let w' := snd (report_request a vehicle w) in
  let before := report_last_updated (self w) in
  let after := report_last_updated (self w') in
  (after <> before ->
     r = Ok tt /\ after = Some (now_stamp a)
     /\ (exists v, request_report_answer a = Ok v /\ truthy v = true)
     /\ (exists earlier : list call,
           issued w' = (issued w ++ earlier ++ [CallRequestReport vehicle])%list))
  /\ (py_int_lt (days_since_last_update before (now_gate a)) (report_interval (self w))
      = Ok true -> w' = w)
  /\ (Connection.logged_in (connection (self w)) = false ->
      doLogin_answer a = Ok false -> after = before)
  /\ (forall v, request_report_answer a = Ok v -> truthy v = false -> after = before)
  /\ (forall e, r = Raise e
                \/ (Connection.logged_in (connection (self w)) = false
                    /\ doLogin_answer a = Raise e)
                \/ request_report_answer a = Raise e ->
      after = before).
Proof.
  cbv zeta. run_report_request. split_answers a w.
  all: repeat match goal with
         | |- _ /\ _ => split
         | |- _ -> _ => intro
         | |- forall _, _ => intro
         end.
  all: try reflexivity; try congruence; try contradiction.
  all: try match goal with
         | H : _ \/ _ |- _ => destruct H as [H | [[? H] | H]]; congruence
         | H : truthy ?v = false, H' : Ok _ = Ok ?v |- _ =>
             injection H' as ->; congruence
         end.
  all: try (eexists; split; [reflexivity | assumption]).
  - exists []. reflexivity.
  - exists [CallDoLogin]. now rewrite <- app_assoc.
Qed.

(** A run the gate suppresses returns at once and leaves the world as it
    was: no call is issued. *)
Lemma report_request_suppressed (a : answers) (vehicle : Vehicle.t) (w : world) :
  py_int_lt (days_since_last_update (report_last_updated (self w)) (now_gate a))
    (report_interval (self w)) = Ok true ->
  report_request a vehicle w = (Ok tt, w).
Proof. intros H. run_report_request. now rewrite H. Qed.

Lemma timedelta_days_lt (delta n : Z) :
  delta < n * microseconds_per_day -> timedelta_days delta < n.
Proof.
  intros H. unfold timedelta_days.
  apply Z.div_lt_upper_bound; unfold microseconds_per_day in *; lia.
Qed.

(** What the code does for the first two calls. A coordinator that never
    issued a report request counts exactly one elapsed day and compares it
    with the interval like any other count. With an interval of at most 1
    day the first call gets past the gate: with a session it issues the
    report request, without one it logs in first and issues the request
    when the login worked. A second call made strictly less than the
    interval (in days) after an accepted first request returns without
    issuing anything. *)
Lemma first_and_second_report_request
    (a1 a2 : answers) (vehicle : Vehicle.t) (w0 : world) (n : Z) :
  report_last_updated (self w0) = None ->
  report_interval (self w0) = PInt n ->
  let w1 := snd (report_request a1 vehicle w0) in
  days_since_last_update (report_last_updated (self w0)) (now_gate a1) = 1
  /\ (forall t0, timedelta_days (now_gate a1 - t0) = 1 ->
       let w0' := {| self := set_report_last_updated (Some t0) (self w0);
                     issued := issued w0 |} in
       fst (report_request a1 vehicle w0') = fst (report_request a1 vehicle w0)
       /\ issued (snd (report_request a1 vehicle w0')) = issued w1)
  /\ (n <= 1 ->
      (Connection.logged_in (connection (self w0)) = true ->
       issued w1 = (issued w0 ++ [CallRequestReport vehicle])%list)
      /\ (Connection.logged_in (connection (self w0)) = false ->
          exists rest : list call,
            issued w1 = (issued w0 ++ CallDoLogin :: rest)%list
            /\ (doLogin_answer a1 = Ok true -> rest = [CallRequestReport vehicle])))
  /\ (report_last_updated (self w1) = Some (now_stamp a1) ->
      now_gate a2 - now_stamp a1 < n * microseconds_per_day ->
      report_request a2 vehicle w1 = (Ok tt, w1)).
Proof.
  intros Hnever Hinterval. cbv zeta.
  split; [now rewrite Hnever|]. split; [|split].
  - intros t0 Ht0. run_report_request.
    unfold days_since_last_update, report_interval. cbn. rewrite Hnever, Ht0.
    fold (report_interval (self w0)).
    destruct (py_int_lt 1 (report_interval (self w0))) as [[|]|?]; cbn;
      [split; reflexivity| |split; reflexivity].
    destruct (Connection.logged_in (connection (self w0))); cbn;
      [|destruct (doLogin_answer a1) as [[|]|?]; cbn];
      try (destruct (request_report_answer a1) as [accepted|?]; cbn;
           [destruct (truthy accepted); cbn|]);
      split; reflexivity.
  - intros Hn. run_report_request.
    rewrite Hnever, Hinterval. cbn.
    assert (Z.ltb 1 n = false) as -> by (apply Z.ltb_ge; lia).
    split; intros Hsession; rewrite Hsession; cbn.
    + destruct (request_report_answer a1) as [accepted|?]; cbn;
        [destruct (truthy accepted)|]; reflexivity.
    + destruct (doLogin_answer a1) as [[|]|?]; cbn.
      * exists [CallRequestReport vehicle].
        split; [|reflexivity].
        destruct (request_report_answer a1) as [accepted|?]; cbn;
          [destruct (truthy accepted)|]; cbn; now rewrite <- app_assoc.
      * exists []. split; [reflexivity | discriminate].
      * exists []. split; [reflexivity | discriminate].
  - intros Hstamp Hsoon. apply report_request_suppressed.
    rewrite Hstamp. unfold report_interval in *.
    rewrite report_request_keeps_entry, Hinterval. cbn.
    f_equal. apply Z.ltb_lt. now apply timedelta_days_lt.
Qed.

End ReportRequest.

Lemma first_and_second_report_request_witness :
  VolkswagenCoordinator.report_request (K := sample_const)
    (all_well (noon + 3600000000) (noon + 3600000000)) golf
    (snd (VolkswagenCoordinator.report_request (K := sample_const)
            (all_well noon noon) golf (golf_world ∅ true)))
  = (Ok tt,
     snd (VolkswagenCoordinator.report_request (K := sample_const)
            (all_well noon noon) golf (golf_world ∅ true))).
Proof.
  refine (proj2 (proj2 (proj2
            (first_and_second_report_request (K := sample_const)
               (all_well noon noon) (all_well (noon + 3600000000) (noon + 3600000000))
               golf (golf_world ∅ true) 1 _ _))) _ _);
    reflexivity.
Defined.

(** C1: the code at the failing input. With a configured interval of 2
    days the first call ever, made with an open session and a client that
    would accept the request, returns at the gate: no report request is
    issued and the timestamp stays unset, where the claim has the first
    call proceed whatever the interval. *)
Lemma first_report_request_suppressed_by_interval :
  let w0 := golf_world {[ "report_scan_interval" := PInt 2 ]} true in
  VolkswagenCoordinator.report_last_updated (VolkswagenCoordinator.self w0) = None
  /\ VolkswagenCoordinator.issued w0 = []
  /\ VolkswagenCoordinator.report_request (K := sample_const) (all_well noon noon) golf w0
     = (Ok tt, w0).
Proof. cbv zeta. repeat split. Qed.

(** With the interval of one day the same first call is issued and the
    timestamp set. *)
Example first_report_request_default_interval :
  let w1 := snd (VolkswagenCoordinator.report_request (K := sample_const)
                   (all_well noon (noon + 5)) golf (golf_world ∅ true)) in
  VolkswagenCoordinator.issued w1 = [CallRequestReport golf]
  /\ VolkswagenCoordinator.report_last_updated (VolkswagenCoordinator.self w1)
     = Some (noon + 5).
Proof. cbv zeta. split; reflexivity. Qed.

Lemma report_last_updated_only_after_success_witness :
  VolkswagenCoordinator.report_last_updated
    (VolkswagenCoordinator.self (snd (VolkswagenCoordinator.report_request (K := sample_const)
                  (answering noon (Ok false) (Ok (PBool true)) noon)
                  golf (golf_world ∅ false))))
  = VolkswagenCoordinator.report_last_updated
      (VolkswagenCoordinator.self (golf_world ∅ false)).
Proof.
  apply (proj1 (proj2 (proj2
           (report_last_updated_only_after_success (K := sample_const)
              (answering noon (Ok false) (Ok (PBool true)) noon)
              golf (golf_world ∅ false)))));
    reflexivity.
Defined.


(** * Further properties of the module *)

(** ** Letter case *)

Lemma upper_ascii_idempotent (c : ascii) : upper_ascii (upper_ascii c) = upper_ascii c.
Proof. destruct c as [[] [] [] [] [] [] [] []]; reflexivity. Qed.

Lemma lower_ascii_idempotent (c : ascii) : lower_ascii (lower_ascii c) = lower_ascii c.
Proof. destruct c as [[] [] [] [] [] [] [] []]; reflexivity. Qed.

Lemma lower_upper_ascii (c : ascii) : lower_ascii (upper_ascii c) = lower_ascii c.
Proof. destruct c as [[] [] [] [] [] [] [] []]; reflexivity. Qed.

Lemma upper_lower_ascii (c : ascii) : upper_ascii (lower_ascii c) = upper_ascii c.
Proof. destruct c as [[] [] [] [] [] [] [] []]; reflexivity. Qed.

Lemma lower_idempotent (s : string) : lower (lower s) = lower s.
Proof. induction s as [|c s IH]; simpl; [reflexivity|]. now rewrite lower_ascii_idempotent, IH. Qed.

Lemma lower_upper (s : string) : lower (upper s) = lower s.
Proof. induction s as [|c s IH]; simpl; [reflexivity|]. now rewrite lower_upper_ascii, IH. Qed.

Lemma upper_lower (s : string) : upper (lower s) = upper s.
Proof. induction s as [|c s IH]; simpl; [reflexivity|]. now rewrite upper_lower_ascii, IH. Qed.

(** Lower-case forms agree exactly when upper-case forms do. *)
Lemma lower_eq_upper_eq (a b : string) : lower a = lower b <-> upper a = upper b.
Proof.
  split; intros H.
  - rewrite <- (upper_lower a), <- (upper_lower b). now rewrite H.
  - rewrite <- (lower_upper a), <- (lower_upper b). now rewrite H.
Qed.

Lemma same_ignoring_case_nonempty (a b : string) :
  same_ignoring_case a b -> a <> "" -> b <> "".
Proof. destruct a, b; simpl; intros H Ha; try contradiction; discriminate. Qed.

(** ** Vehicle selection and naming up to letter case *)

(** X1. Two coordinators built from entries whose configured vehicle
    identifiers differ only in letter case answer every fetch alike: they
    select the same vehicle, or both none, or both raise. *)
Theorem update_ignores_case_of_configuration `{K : const}
    (entry1 entry2 : ConfigEntry.t) (conn1 conn2 : Connection.t)
    (c1 c2 : VolkswagenCoordinator.t) (id1 id2 : string)
    (fetched : fetch) :
  ConfigEntry.data entry1 !! CONF_VEHICLE = Some (PStr id1) ->
  ConfigEntry.data entry2 !! CONF_VEHICLE = Some (PStr id2) ->
  same_ignoring_case id1 id2 ->
  VolkswagenCoordinator.init entry1 conn1 = Ok c1 ->
  VolkswagenCoordinator.init entry2 conn2 = Ok c2 ->
  fst (VolkswagenCoordinator.update fetched
         {| VolkswagenCoordinator.self := c1; VolkswagenCoordinator.issued := [] |})
  = fst (VolkswagenCoordinator.update fetched
           {| VolkswagenCoordinator.self := c2; VolkswagenCoordinator.issued := [] |}).
Proof.
  intros H1 H2 Hsame Hc1 Hc2.
  unfold VolkswagenCoordinator.init in Hc1, Hc2. rewrite H1 in Hc1. rewrite H2 in Hc2.
  injection Hc1 as <-. injection Hc2 as <-.
  apply upper_same_ignoring_case in Hsame.
  destruct fetched as [[[|]|e] left]; cbn; try reflexivity.
  now rewrite Hsame.
Qed.

Lemma update_ignores_case_of_configuration_witness :
  fst (VolkswagenCoordinator.update (fetched_vehicles [polo; golf])
         {| VolkswagenCoordinator.self := golf_coordinator ∅ false None;
            VolkswagenCoordinator.issued := [] |})
  = fst (VolkswagenCoordinator.update (fetched_vehicles [polo; golf])
           {| VolkswagenCoordinator.self :=
                VolkswagenCoordinator.mk "WVWZZZAUZGW000001"
                  (ConfigEntry.mk {[ "vehicle" := PStr "WvwzzzAUZgw000001" ]} ∅)
                  [] None (Connection.mk true []) None;
              VolkswagenCoordinator.issued := [] |}).
Proof.
  refine (update_ignores_case_of_configuration (K := sample_const)
            (golf_entry ∅) (ConfigEntry.mk {[ "vehicle" := PStr "WvwzzzAUZgw000001" ]} ∅)
            (Connection.mk false []) (Connection.mk true [])
            _ _ "wvwzzzauzgw000001" "WvwzzzAUZgw000001" (fetched_vehicles [polo; golf])
            _ _ _ _ _); try reflexivity.
  apply upper_same_ignoring_case. reflexivity.
Defined.

(** X2. A key of the naming map that contains a capital letter is never
    used: removing it changes the name of no vehicle. *)
Theorem vehicle_name_ignores_keys_with_capitals (d : VolkswagenData.t)
    (m : gmap string pyval) (key : string) (v : Vehicle.t) :
  VolkswagenData.names d = PDict m ->
  lower key <> key ->
  VolkswagenData.vehicle_name d v
  = VolkswagenData.vehicle_name
      (VolkswagenData.mk (VolkswagenData.instruments d) (PDict (delete key m))
         (VolkswagenData.coordinator d)) v.
Proof.
  intros Hm Hkey. unfold VolkswagenData.vehicle_name. rewrite Hm. cbn.
  destruct (negb (String.eqb (Vehicle.vin v) "")); [|reflexivity].
  rewrite lookup_delete_ne; [reflexivity|].
  intros ->. apply Hkey. apply lower_idempotent.
Qed.

Lemma vehicle_name_ignores_keys_with_capitals_witness :
  VolkswagenData.vehicle_name
    (VolkswagenData.mk [] (PDict {[ "WVWZZZAUZGW000001" := PStr "My Car" ]}) None) golf
  = VolkswagenData.vehicle_name
      (VolkswagenData.mk [] (PDict (delete "WVWZZZAUZGW000001"
                                      {[ "WVWZZZAUZGW000001" := PStr "My Car" ]})) None)
      golf.
Proof.
  apply (vehicle_name_ignores_keys_with_capitals
           (VolkswagenData.mk [] (PDict {[ "WVWZZZAUZGW000001" := PStr "My Car" ]}) None)
           {[ "WVWZZZAUZGW000001" := PStr "My Car" ]} "WVWZZZAUZGW000001" golf);
    [reflexivity | discriminate].
Defined.

(** X3. Under a naming map, vehicles whose identifiers differ only in
    letter case get the same name whenever the lower-cased identifier is a
    key of the map. *)
Theorem vehicle_name_same_for_any_case (d : VolkswagenData.t) (m : gmap string pyval)
    (v1 v2 : Vehicle.t) (mapped : pyval) :
  VolkswagenData.names d = PDict m ->
  same_ignoring_case (Vehicle.vin v1) (Vehicle.vin v2) ->
  Vehicle.vin v1 <> "" ->
  m !! lower (Vehicle.vin v1) = Some mapped ->
  VolkswagenData.vehicle_name d v1 = Ok mapped
  /\ VolkswagenData.vehicle_name d v2 = Ok mapped.
Proof.
  intros Hm Hsame Hne Hkey.
  pose proof (same_ignoring_case_nonempty _ _ Hsame Hne) as Hne2.
  assert (lower (Vehicle.vin v2) = lower (Vehicle.vin v1)) as Hl.
  { symmetry. apply lower_eq_upper_eq, upper_same_ignoring_case, Hsame. }
  unfold VolkswagenData.vehicle_name. rewrite Hm.
  apply String.eqb_neq in Hne, Hne2. rewrite Hne, Hne2. cbn.
  now rewrite Hl, Hkey.
Qed.

Lemma vehicle_name_same_for_any_case_witness :
  VolkswagenData.vehicle_name
    (VolkswagenData.mk [] (PDict {[ "wvwzzzauzgw000001" := PStr "My Car" ]}) None) golf
  = Ok (PStr "My Car")
  /\ VolkswagenData.vehicle_name
       (VolkswagenData.mk [] (PDict {[ "wvwzzzauzgw000001" := PStr "My Car" ]}) None)
       (Vehicle.mk "wvwzzzAUZGW000001" false)
     = Ok (PStr "My Car").
Proof.
  apply (vehicle_name_same_for_any_case
           (VolkswagenData.mk [] (PDict {[ "wvwzzzauzgw000001" := PStr "My Car" ]}) None)
           {[ "wvwzzzauzgw000001" := PStr "My Car" ]}
           golf (Vehicle.mk "wvwzzzAUZGW000001" false) (PStr "My Car"));
    try reflexivity; [|discriminate].
  apply upper_same_ignoring_case. reflexivity.
Defined.

(** ** The coordinator's coroutines *)

Section CoordinatorProperties.
Import VolkswagenCoordinator.
Context `{K : const}.

Ltac run_coroutine :=
  unfold Coroutines.async_login, update, connection_update, report_request,
    connection_doLogin, vehicle_request_report,
    try_except, bind, lift, get_self, put_self, issue, ret; cbn.

(** X4. [update] issues exactly one call to the client, the fetch, and
    leaves the coordinator's own fields alone: the identifier, the entry,
    the platforms, the report timestamp and the snapshot. An exception of
    the client is passed on. When the fetch answers, [update] returns
    without raising: [None] when the fetch failed, and otherwise [None] or
    a vehicle of the list the client left in the connection. *)
Theorem update_frame (fetched : fetch) (w : world) :
  let r := fst (update fetched w) in
  let w' := snd (update fetched w) in
  issued w' = (issued w ++ [CallUpdate])%list
  /\ vin (self w') = vin (self w)
  /\ entry (self w') = entry (self w)
  /\ platforms (self w') = platforms (self w)
  /\ report_last_updated (self w') = report_last_updated (self w)
  /\ data (self w') = data (self w)
  /\ match update_answer fetched with
     | Ok ok =>
         exists found, r = Ok found
           /\ (ok = false -> found = None)
           /\ (forall v, found = Some v ->
                 In v (Connection.vehicles (update_leaves fetched)))
     | Raise e => r = Raise e
     end.
Proof.
  cbv zeta. run_coroutine.
  destruct fetched as [[[|]|e] left]; cbn; repeat split; try reflexivity.
  - eexists. split; [reflexivity|]. split; [discriminate|].
    intros v Hv. now apply List.find_some in Hv as [Hv _].
  - exists None. repeat split. discriminate.
Qed.

(** X5. [async_login] with an open session returns [True] and calls
    nothing. Without one it issues exactly one login; when the login
    returns, the result is the session flag it left, and when it raises,
    the exception is passed on and the coordinator's own fields are
    untouched. *)
Theorem async_login_mirrors_session (a : answers) (w : world) :
  let r := fst (Coroutines.async_login a w) in
  let w' := snd (Coroutines.async_login a w) in
  if Connection.logged_in (connection (self w))
  then r = Ok true /\ w' = w
  else issued w' = (issued w ++ [CallDoLogin])%list
       /\ match doLogin_answer a with
          | Ok flag => r = Ok flag
                       /\ Connection.logged_in (connection (self w')) = flag
          | Raise e => r = Raise e
                       /\ vin (self w') = vin (self w)
                       /\ entry (self w') = entry (self w)
                       /\ platforms (self w') = platforms (self w)
                       /\ report_last_updated (self w') = report_last_updated (self w)
                       /\ data (self w') = data (self w)
          end.
Proof.
  cbv zeta. run_coroutine.
  destruct (Connection.logged_in (connection (self w))) eqn:Hs; cbn.
  - split; [reflexivity | now destruct w].
  - unfold raise, bind, put_self.
    destruct (doLogin_answer a) as [[|]|e]; cbn; repeat split; reflexivity.
Qed.

(** X6. Whatever the answers, [report_request] leaves the identifier, the
    entry, the platforms and the snapshot of the coordinator alone, and
    issues at most one login followed by at most one report request. It
    raises only the TypeError of comparing the elapsed days with an
    interval that is no number, and then before any call is issued, with
    the coordinator and the connection as they were. *)
Theorem report_request_frame (a : answers) (vehicle : Vehicle.t) (w : world) :
  let r := fst (report_request a vehicle w) in
  let w' := snd (report_request a vehicle w) in
  vin (self w') = vin (self w)
  /\ entry (self w') = entry (self w)
  /\ platforms (self w') = platforms (self w)
  /\ data (self w') = data (self w)
  /\ (exists calls : list call,
        issued w' = (issued w ++ calls)%list
        /\ (calls = [] \/ calls = [CallDoLogin] \/ calls = [CallRequestReport vehicle]
            \/ calls = [CallDoLogin; CallRequestReport vehicle]))
  /\ (r = Ok tt \/ (r = Raise TypeError /\ w' = w)).
Proof.
  cbv zeta. run_coroutine. unfold raise, bind, put_self.
  destruct (py_int_lt _ (report_interval (self w))) as [[|]|e] eqn:Hgate; cbn.
  - repeat split; try reflexivity; [|now left].
    exists []. split; [now rewrite app_nil_r | now left].
  - destruct (Connection.logged_in (connection (self w))); cbn;
      [|destruct (doLogin_answer a) as [[|]|?]; cbn];
      try (destruct (request_report_answer a) as [accepted|?]; cbn;
           [destruct (truthy accepted); cbn|]);
      repeat split; try reflexivity; try (now left);
      first [ exists [CallRequestReport vehicle]; split; [reflexivity | tauto]
            | exists [CallDoLogin; CallRequestReport vehicle];
              split; [now rewrite <- app_assoc | tauto]
            | exists [CallDoLogin]; split; [reflexivity | tauto] ].
  - repeat split; try reflexivity.
    + exists []. split; [now rewrite app_nil_r | now left].
    + right. split; [|reflexivity].
      unfold py_int_lt in Hgate.
      destruct (report_interval (self w)); try discriminate; now injection Hgate as <-.
Qed.

(** X7. Once the configured interval has fully elapsed since the last
    accepted report request, a coordinator with an open session issues the
    report request again, and when the client accepts it the timestamp
    moves to the new reading of the clock. *)
Theorem report_request_after_interval (a : answers) (vehicle : Vehicle.t) (w : world)
    (n last : Z) :
  report_last_updated (self w) = Some last ->
  report_interval (self w) = PInt n ->
  last + n * microseconds_per_day <= now_gate a ->
  Connection.logged_in (connection (self w)) = true ->
  let w' := snd (report_request a vehicle w) in
  issued w' = (issued w ++ [CallRequestReport vehicle])%list
  /\ (forall accepted, request_report_answer a = Ok accepted -> truthy accepted = true ->
      report_last_updated (self w') = Some (now_stamp a)).
Proof.
  intros Hlast Hinterval Hdue Hsession. cbv zeta. run_coroutine.
  rewrite Hlast, Hinterval, Hsession. cbn.
  assert (Z.ltb (timedelta_days (now_gate a - last)) n = false) as ->.
  { apply Z.ltb_ge. unfold timedelta_days.
    apply Z.div_le_lower_bound; unfold microseconds_per_day in *; lia. }
  destruct (request_report_answer a) as [accepted|e]; cbn.
  - destruct (truthy accepted) eqn:Ht; cbn; (split; [reflexivity|]);
      intros v [= <-] Hv; first [reflexivity | congruence].
  - split; [reflexivity | discriminate].
Qed.

(** X8. A coordinator configured with an interval of two days or more
    that has never recorded a report request never issues one: every call
    of any sequence of calls returns at once and leaves the coordinator
    and the list of issued calls as they were. *)
Theorem report_requests_never_issued (calls : list (answers * Vehicle.t)) (w : world)
    (n : Z) :
  report_last_updated (self w) = None ->
  report_interval (self w) = PInt n ->
  1 < n ->
  Coroutines.report_requests calls w = (Ok tt, w).
Proof.
  intros Hnever Hinterval Hn.
  induction calls as [|[a vehicle] rest IH]; [reflexivity|].
  cbn [Coroutines.report_requests]. unfold bind.
  rewrite report_request_suppressed; [exact IH|].
  rewrite Hnever, Hinterval. cbn. f_equal. apply Z.ltb_lt. lia.
Qed.

End CoordinatorProperties.

Lemma report_request_after_interval_witness :
  let w := {| VolkswagenCoordinator.self :=
                VolkswagenCoordinator.set_report_last_updated (Some noon)
                  (golf_coordinator ∅ true None);
              VolkswagenCoordinator.issued := [] |} in
  let w' := snd (VolkswagenCoordinator.report_request (K := sample_const)
                   (all_well (noon + microseconds_per_day) (noon + microseconds_per_day + 7))
                   golf w) in
  VolkswagenCoordinator.issued w' = [CallRequestReport golf]
  /\ (forall accepted,
        request_report_answer
          (all_well (noon + microseconds_per_day) (noon + microseconds_per_day + 7))
        = Ok accepted ->
        truthy accepted = true ->
        VolkswagenCoordinator.report_last_updated (VolkswagenCoordinator.self w')
        = Some (now_stamp
                  (all_well (noon + microseconds_per_day) (noon + microseconds_per_day + 7)))).
Proof.
  refine (report_request_after_interval (K := sample_const)
            (all_well (noon + microseconds_per_day) (noon + microseconds_per_day + 7))
            golf
            {| VolkswagenCoordinator.self :=
                 VolkswagenCoordinator.set_report_last_updated (Some noon)
                   (golf_coordinator ∅ true None);
               VolkswagenCoordinator.issued := [] |}
            1 noon _ _ _ _); first [reflexivity | vm_compute; discriminate].
Defined.

Lemma report_requests_never_issued_witness :
  Coroutines.report_requests (K := sample_const)
    [(all_well noon noon, golf);
     (all_well (noon + 3 * microseconds_per_day) (noon + 3 * microseconds_per_day), golf)]
    (golf_world {[ "report_scan_interval" := PInt 2 ]} true)
  = (Ok tt, golf_world {[ "report_scan_interval" := PInt 2 ]} true).
Proof.
  refine (report_requests_never_issued (K := sample_const) _ _ 2 _ _ _);
    reflexivity.
Defined.

(** ** The refresh *)

Lemma find_all_false {A} (p : A -> bool) (l : list A) :
  Forall (fun x => p x = false) l -> List.find p l = None.
Proof.
  induction 1 as [|x l Hx _ IH]; simpl; [reflexivity|]. now rewrite Hx.
Qed.

Section RefreshProperties.
Import VolkswagenCoordinator.
Context `{K : const} `{S : setup_const}.
Variable dashboard : Vehicle.t -> pyval -> pyval -> bool -> bool -> list Instrument.t.

Abbreviation refresh := (Coroutines._async_update_data dashboard).

Lemma update_keeps_coordinator (fetched : fetch) (w : world) :
  entry (self (snd (update fetched w))) = entry (self w)
  /\ report_last_updated (self (snd (update fetched w))) = report_last_updated (self w)
  /\ data (self (snd (update fetched w))) = data (self w)
  /\ issued (snd (update fetched w)) = (issued w ++ [CallUpdate])%list.
Proof.
  unfold update, connection_update, bind, lift, get_self, put_self, issue, ret; cbn.
  destruct fetched as [[[|]|e] left]; cbn; repeat split; reflexivity.
Qed.

Lemma report_request_returns (a : answers) (vehicle : Vehicle.t) (w : world) (n : Z) :
  report_interval (self w) = PInt n ->
  fst (report_request a vehicle w) = Ok tt
  /\ entry (self (snd (report_request a vehicle w))) = entry (self w)
  /\ data (self (snd (report_request a vehicle w))) = data (self w).
Proof.
  intros Hn.
  unfold report_request, connection_doLogin, vehicle_request_report,
    try_except, bind, lift, get_self, put_self, issue, ret; cbn.
  rewrite Hn. cbn.
  destruct (Z.ltb _ n); cbn; [repeat split; reflexivity|].
  destruct (Connection.logged_in (connection (self w))); cbn;
    [|destruct (doLogin_answer a) as [[|]|?]; cbn];
    try (destruct (request_report_answer a) as [accepted|?]; cbn;
         [destruct (truthy accepted); cbn|]);
    repeat split; reflexivity.
Qed.

(** X9. When the fetch fails, or no fetched vehicle carries the
    coordinator's identifier, the refresh raises [UpdateFailed]; the fetch
    is the only call it issued, the report timestamp is untouched, and the
    platform's [async_refresh] reports a failure and keeps the previous
    snapshot. *)
Theorem refresh_fails_without_vehicle (fetched : fetch) (ok : bool)
    (a : answers) (w : world) :
  update_answer fetched = Ok ok ->
  ok = false
  \/ Forall (fun v => upper (Vehicle.vin v) <> vin (self w))
       (Connection.vehicles (update_leaves fetched)) ->
  let r := fst (refresh fetched a w) in
  let w' := snd (refresh fetched a w) in
  r = Ok UpdateFailed
  /\ issued w' = (issued w ++ [CallUpdate])%list
  /\ report_last_updated (self w') = report_last_updated (self w)
  /\ fst (Coroutines.async_refresh dashboard fetched a w) = false
  /\ data (self (snd (Coroutines.async_refresh dashboard fetched a w)))
     = data (self w).
Proof.
  intros Hok H. cbv zeta.
  assert (refresh fetched a w
          = (Ok UpdateFailed,
             {| self := set_connection (update_leaves fetched) (self w);
                issued := (issued w ++ [CallUpdate])%list |})) as Hr.
  { unfold Coroutines._async_update_data, update, connection_update,
      bind, lift, get_self, put_self, issue, ret; cbn.
    rewrite Hok. cbn.
    destruct ok; cbn; [|reflexivity].
    destruct H as [H | H]; [discriminate|].
    rewrite find_all_false; [reflexivity|].
    eapply List.Forall_impl; [|exact H].
    intros v Hv. now apply String.eqb_neq. }
  unfold Coroutines.async_refresh. rewrite Hr. cbn. repeat split; reflexivity.
Qed.

(** X10. With the report-request option absent or falsy, a refresh issues
    the fetch and nothing else, whatever the client answers, and leaves
    the report timestamp alone. *)
Theorem refresh_without_report_option (fetched : fetch)
    (a : answers) (w : world) :
  truthy (dict_get (ConfigEntry.options (entry (self w))) CONF_REPORT_REQUEST (PBool false))
  = false ->
  issued (snd (refresh fetched a w)) = (issued w ++ [CallUpdate])%list
  /\ report_last_updated (self (snd (refresh fetched a w))) = report_last_updated (self w).
Proof.
  intros Hoff.
  unfold Coroutines._async_update_data, update, connection_update,
    bind, lift, get_self, put_self, issue, ret; cbn.
  destruct fetched as [[[|]|e] left]; cbn; try (split; reflexivity).
  destruct (List.find _ (Connection.vehicles left)); cbn; [|split; reflexivity].
  rewrite Hoff. cbn. split; reflexivity.
Qed.

(** X11. A refresh that found its vehicle and whose report interval is an
    integer returns the instrument list of the dashboard, built with the
    conversion flags of the entry, whatever the login and the report
    request answer or raise: a failed report request never fails the
    refresh. *)
Theorem refresh_survives_report_failures (fetched : fetch)
    (a : answers) (w : world) (vehicle : Vehicle.t) (n : Z) :
  fst (update fetched w) = Ok (Some vehicle) ->
  report_interval (self w) = PInt n ->
  fst (refresh fetched a w)
  = Ok (Instruments
          (dashboard vehicle
             (dict_get (ConfigEntry.data (entry (self w))) CONF_MUTABLE PNone)
             (dict_get (ConfigEntry.data (entry (self w))) CONF_SPIN PNone)
             (dashboard_miles (entry (self w)))
             (dashboard_scandinavian_miles (entry (self w))))).
Proof.
  intros Hfound Hn.
  destruct (update_keeps_coordinator fetched w) as (Hentry & _).
  unfold Coroutines._async_update_data, bind.
  destruct (update fetched w) as [r w1]. cbn in Hfound, Hentry. subst r.
  unfold get_self. cbn.
  assert (report_interval (self w1) = PInt n) as Hn1.
  { unfold report_interval in *. now rewrite Hentry. }
  destruct (truthy _).
  - destruct (report_request_returns a vehicle w1 n Hn1) as (Hr & _).
    destruct (report_request a vehicle w1) as [r2 w2]. cbn in Hr. subst r2.
    unfold ret. cbn. now rewrite Hentry.
  - unfold ret. cbn. now rewrite Hentry.
Qed.

(** X12. With report requests switched on and a report interval that is
    no number (a string, say), a refresh that found its vehicle raises the
    TypeError of the interval comparison: the platform's [async_refresh]
    reports a failure and the snapshot is not replaced. *)
Theorem refresh_fails_on_non_numeric_interval (fetched : fetch)
    (a : answers) (w : world) (vehicle : Vehicle.t) :
  fst (update fetched w) = Ok (Some vehicle) ->
  truthy (dict_get (ConfigEntry.options (entry (self w))) CONF_REPORT_REQUEST (PBool false))
  = true ->
  (forall days, py_int_lt days (report_interval (self w)) = Raise TypeError) ->
  fst (refresh fetched a w) = Raise TypeError
  /\ fst (Coroutines.async_refresh dashboard fetched a w) = false
  /\ data (self (snd (Coroutines.async_refresh dashboard fetched a w))) = data (self w).
Proof.
  intros Hfound Hon Hbad.
  destruct (update_keeps_coordinator fetched w) as (Hentry & _ & Hdata & _).
  assert (exists w', refresh fetched a w = (Raise TypeError, w') /\ data (self w') = data (self w))
    as (w' & Hr & Hw').
  { unfold Coroutines._async_update_data, bind.
    destruct (update fetched w) as [r w1]. cbn in Hfound, Hentry, Hdata. subst r.
    unfold get_self. cbn. rewrite Hentry, Hon.
    unfold report_request, bind, lift, get_self. cbn.
    unfold report_interval in *. rewrite Hentry, Hbad.
    eexists. split; [reflexivity | exact Hdata]. }
  unfold Coroutines.async_refresh. rewrite Hr. cbn. auto.
Qed.

End RefreshProperties.

Lemma refresh_fails_without_vehicle_witness :
  fst (Coroutines._async_update_data (K := sample_const) (S := sample_setup_const)
         sample_dashboard (fetched_vehicles [polo]) (all_well noon noon) (golf_world ∅ true))
  = Ok UpdateFailed.
Proof.
  refine (proj1 (refresh_fails_without_vehicle (K := sample_const)
                   (S := sample_setup_const) sample_dashboard
                   (fetched_vehicles [polo]) true (all_well noon noon)
                   (golf_world ∅ true) eq_refl _)).
  right. repeat constructor. discriminate.
Defined.

Lemma refresh_without_report_option_witness :
  VolkswagenCoordinator.issued
    (snd (Coroutines._async_update_data (K := sample_const) (S := sample_setup_const)
            sample_dashboard (fetched_vehicles [polo; golf]) (all_well noon noon)
            (golf_world ∅ true)))
  = [CallUpdate].
Proof.
  refine (proj1 (refresh_without_report_option (K := sample_const)
                   (S := sample_setup_const) sample_dashboard
                   (fetched_vehicles [polo; golf]) (all_well noon noon) (golf_world ∅ true) _)).
  reflexivity.
Defined.

Lemma refresh_survives_report_failures_witness :
  fst (Coroutines._async_update_data (K := sample_const) (S := sample_setup_const)
         sample_dashboard (fetched_vehicles [polo; golf])
         (answering noon (Raise (ClientError "timeout")) (Raise (ClientError "timeout")) noon)
         (golf_world {[ "report_request" := PBool true ]} false))
  = Ok (Instruments [golf_door; golf_charging; golf_battery 80]).
Proof.
  refine (refresh_survives_report_failures (K := sample_const)
            (S := sample_setup_const) sample_dashboard
            (fetched_vehicles [polo; golf])
            (answering noon (Raise (ClientError "timeout")) (Raise (ClientError "timeout")) noon)
            (golf_world {[ "report_request" := PBool true ]} false) golf 1 _ _);
    reflexivity.
Defined.

Lemma refresh_fails_on_non_numeric_interval_witness :
  fst (Coroutines._async_update_data (K := sample_const) (S := sample_setup_const)
         sample_dashboard (fetched_vehicles [polo; golf]) (all_well noon noon)
         (golf_world (<["report_request" := PBool true]>
                        {[ "report_scan_interval" := PStr "2" ]}) true))
  = Raise TypeError.
Proof.
  refine (proj1 (refresh_fails_on_non_numeric_interval (K := sample_const)
                   (S := sample_setup_const) sample_dashboard
                   (fetched_vehicles [polo; golf]) (all_well noon noon)
                   (golf_world (<["report_request" := PBool true]>
                                  {[ "report_scan_interval" := PStr "2" ]}) true)
                   golf _ _ _)); first [reflexivity | intros days; reflexivity].
Defined.

(** ** Conversion flags *)

Lemma py_eq_scalar_str (v : pyval) (s : string) :
  py_eq_scalar v (PStr s) = true <-> v = PStr s.
Proof.
  destruct v; simpl; try (split; [discriminate | intros [=]]).
  rewrite String.eqb_eq. split; [now intros -> | now intros [= ->]].
Qed.

(** X13. When the constants for imperial units and for Scandinavian miles
    differ, no entry makes the refresh ask the dashboard for miles and for
    Scandinavian miles at once. *)
Theorem dashboard_flags_exclusive `{K : const} (entry : ConfigEntry.t) :
  CONF_IMPERIAL_UNITS <> CONF_SCANDINAVIAN_MILES ->
  dashboard_miles entry && dashboard_scandinavian_miles entry = false.
Proof.
  intros Hne. unfold dashboard_miles, dashboard_scandinavian_miles.
  destruct (py_eq_scalar _ (PStr CONF_IMPERIAL_UNITS)) eqn:H1; [|reflexivity].
  destruct (py_eq_scalar _ (PStr CONF_SCANDINAVIAN_MILES)) eqn:H2; [|reflexivity].
  apply py_eq_scalar_str in H1, H2. congruence.
Qed.

Lemma dashboard_flags_exclusive_witness :
  dashboard_miles (K := sample_const) (golf_entry {[ "convert" := PStr "imperial" ]})
  && dashboard_scandinavian_miles (K := sample_const)
       (golf_entry {[ "convert" := PStr "imperial" ]})
  = false.
Proof.
  apply (dashboard_flags_exclusive (K := sample_const)
           (golf_entry {[ "convert" := PStr "imperial" ]})).
  discriminate.
Defined.

(** A legacy Scandinavian-miles flag stored in the options decides
    the default mode alone: the flag stored in the data is not looked at,
    so a false flag in the options switches off a true flag in the
    data. *)
Lemma legacy_flag_in_options_shadows_data `{K : const} (entry : ConfigEntry.t)
    (flag : pyval) :
  ConfigEntry.options entry !! CONF_SCANDINAVIAN_MILES = Some flag ->
  get_convert_conf entry
  = if truthy flag then PStr CONF_SCANDINAVIAN_MILES else PStr CONF_NO_CONVERSION.
Proof. intros H. unfold get_convert_conf, dict_get. now rewrite H. Qed.

Lemma legacy_flag_in_options_shadows_data_witness :
  get_convert_conf (K := sample_const)
    (ConfigEntry.mk {[ "scandinavian_miles" := PBool true ]}
       {[ "scandinavian_miles" := PBool false ]})
  = PStr "no_conversion".
Proof.
  apply (legacy_flag_in_options_shadows_data (K := sample_const)
           (ConfigEntry.mk {[ "scandinavian_miles" := PBool true ]}
              {[ "scandinavian_miles" := PBool false ]}) (PBool false)).
  reflexivity.
Defined.

(** ** Setup and unload *)

Section SetupProperties.
Import VolkswagenCoordinator.
Context `{K : const} `{S : setup_const}.
Variable dashboard : Vehicle.t -> pyval -> pyval -> bool -> bool -> list Instrument.t.
Variable slug_attr : Instrument.t -> string.

Abbreviation setup := (Coroutines.async_setup_entry dashboard slug_attr).
Abbreviation enabled := (Coroutines.enabled_instruments slug_attr).

(** X14. A scan interval that is absent from the options, or falsy there
    (0, an empty string, None), gives the default interval; a non-zero
    integer of minutes within the range of a timedelta is taken as it
    is, a negative one included. *)
Theorem update_interval_of_options (entry : ConfigEntry.t) :
  (ConfigEntry.options entry !! CONF_SCAN_INTERVAL = None ->
   Coroutines.update_interval entry = timedelta_minutes (PInt DEFAULT_UPDATE_INTERVAL))
  /\ (forall v, ConfigEntry.options entry !! CONF_SCAN_INTERVAL = Some v ->
        truthy v = false ->
        Coroutines.update_interval entry = timedelta_minutes (PInt DEFAULT_UPDATE_INTERVAL))
  /\ (forall n, ConfigEntry.options entry !! CONF_SCAN_INTERVAL = Some (PInt n) ->
        n <> 0 -> -999999999 * 1440 <= n < 1000000000 * 1440 ->
        Coroutines.update_interval entry = Minutes n).
Proof.
  unfold Coroutines.update_interval, dict_get. split; [|split].
  - now intros ->.
  - intros v -> Hv. cbn. now rewrite Hv.
  - intros n -> Hn Hrange. cbn.
    assert (Z.eqb n 0 = false) as -> by now apply Z.eqb_neq.
    cbn.
    assert (Z.leb (-999999999) (n / 1440) = true) as ->.
    { apply Z.leb_le. apply Z.div_le_lower_bound; lia. }
    assert (Z.leb (n / 1440) 999999999 = true) as ->.
    { apply Z.leb_le. assert (n / 1440 < 1000000000); [|lia].
      apply Z.div_lt_upper_bound; lia. }
    reflexivity.
Qed.

Lemma enabled_filter (entry : ConfigEntry.t) (keep : Instrument.t -> bool)
    (instruments : list Instrument.t) :
  (forall i, is_Some (COMPONENTS !! Instrument.component i) ->
             Coroutines.is_enabled entry (slug_attr i) = Ok (keep i)) ->
  enabled entry instruments
  = Ok (List.filter
          (fun i => match COMPONENTS !! Instrument.component i with
                    | Some _ => keep i
                    | None => false
                    end) instruments).
Proof.
  intros Hkeep. induction instruments as [|i rest IH]; [reflexivity|].
  cbn [Coroutines.enabled_instruments List.filter].
  destruct (COMPONENTS !! Instrument.component i) as [p|] eqn:Hp; [|exact IH].
  rewrite Hkeep by (rewrite Hp; eauto).
  destruct (keep i); [|exact IH]. now rewrite IH.
Qed.

(** X15. The instruments [async_setup_entry] registers are, in the order
    of the refresh: every instrument of a component known to [COMPONENTS]
    when the entry has no resource allowlist; and with an allowlist that
    is a list, those of a known component whose slug is one of its
    strings. *)
Theorem enabled_instruments_by_allowlist (entry : ConfigEntry.t)
    (instruments : list Instrument.t) :
  (ConfigEntry.data entry !! CONF_RESOURCES = None ->
   exists keep : Instrument.t -> bool,
     enabled entry instruments = Ok (List.filter keep instruments)
     /\ forall i, keep i = true <-> is_Some (COMPONENTS !! Instrument.component i))
  /\ (forall allow, ConfigEntry.data entry !! CONF_RESOURCES = Some (PList allow) ->
      exists keep : Instrument.t -> bool,
        enabled entry instruments = Ok (List.filter keep instruments)
        /\ forall i, keep i = true <->
                     is_Some (COMPONENTS !! Instrument.component i)
                     /\ In (PStr (slug_attr i)) allow).
Proof.
  split.
  - intros Hres. eexists. split.
    + apply (enabled_filter entry (fun _ => true)).
      intros i _. unfold Coroutines.is_enabled, dict_get. rewrite Hres. cbn.
      now rewrite String.eqb_refl.
    + intros i. cbn. destruct (COMPONENTS !! Instrument.component i); split;
        try reflexivity; try discriminate; eauto. intros [? [=]].
  - intros allow Hres. eexists. split.
    + apply (enabled_filter entry
               (fun i => existsb (fun x => py_eq_scalar x (PStr (slug_attr i))) allow)).
      intros i _. unfold Coroutines.is_enabled, dict_get. now rewrite Hres.
    + intros i. cbn.
      assert (existsb (fun x => py_eq_scalar x (PStr (slug_attr i))) allow = true
              <-> In (PStr (slug_attr i)) allow) as Hin.
      { rewrite existsb_exists. split.
        - intros (x & Hx & Hxs). apply py_eq_scalar_str in Hxs. now subst.
        - intros Hx. eexists. split; [exact Hx|]. now apply py_eq_scalar_str. }
      destruct (COMPONENTS !! Instrument.component i).
      * rewrite Hin. split; [eauto | tauto].
      * split; [discriminate | intros [[? [=]] _]].
Qed.

(** X16. The platforms the setup forwards the entry to are listed once
    each, and are exactly the platforms [COMPONENTS] gives for the
    component of some registered instrument. *)
Theorem forwarded_platforms (registered : list Instrument.t) :
  NoDup (Coroutines.components_of registered)
  /\ forall p, In p (Coroutines.components_of registered)
               <-> exists i, In i registered
                             /\ COMPONENTS !! Instrument.component i = Some p.
Proof.
  unfold Coroutines.components_of. split; [apply NoDup_elements|].
  intros p. rewrite <- list_elem_of_In, elem_of_elements, elem_of_list_to_set,
    list_elem_of_omap.
  split; intros (i & Hi & Hp); exists i; split; auto; now apply list_elem_of_In.
Qed.

Lemma enabled_incl (entry : ConfigEntry.t) (instruments registered : list Instrument.t) :
  enabled entry instruments = Ok registered ->
  forall i, In i registered -> In i instruments.
Proof.
  revert registered. induction instruments as [|j rest IH]; intros registered.
  - intros [= <-] i [].
  - cbn [Coroutines.enabled_instruments].
    destruct (COMPONENTS !! Instrument.component j); [|intros H i Hi; right; eauto].
    destruct (Coroutines.is_enabled entry (slug_attr j)) as [[|]|e]; try discriminate.
    + destruct (enabled entry rest) as [l|e]; [|discriminate].
      intros [= <-] i [-> | Hi]; [now left | right; eauto].
    + intros H i Hi; right; eauto.
Qed.

Lemma async_login_keeps (login : answers) (w : world) :
  platforms (self (snd (Coroutines.async_login login w))) = platforms (self w)
  /\ entry (self (snd (Coroutines.async_login login w))) = entry (self w).
Proof.
  unfold Coroutines.async_login, connection_doLogin,
    bind, lift, get_self, put_self, issue, ret; cbn.
  destruct (Connection.logged_in (connection (self w))); cbn; [split; reflexivity|].
  destruct (doLogin_answer login) as [[|]|e]; cbn; split; reflexivity.
Qed.

Lemma report_request_keeps_platforms (a : answers) (vehicle : Vehicle.t) (w : world) :
  platforms (self (snd (report_request a vehicle w))) = platforms (self w).
Proof.
  unfold report_request, connection_doLogin, vehicle_request_report,
    try_except, bind, lift, get_self, put_self, issue, ret; cbn.
  destruct (py_int_lt _ _) as [[|]|?]; cbn; try reflexivity.
  destruct (Connection.logged_in (connection (self w))); cbn;
    [|destruct (doLogin_answer a) as [[|]|?]; cbn];
    try (destruct (request_report_answer a) as [accepted|?]; cbn;
         [destruct (truthy accepted); cbn|]);
    reflexivity.
Qed.

Lemma async_refresh_keeps_platforms (fetched : fetch)
    (a : answers) (w : world) :
  platforms (self (snd (Coroutines.async_refresh dashboard fetched a w)))
  = platforms (self w).
Proof.
  assert (platforms (self (snd (Coroutines._async_update_data dashboard fetched a w)))
          = platforms (self w)) as H.
  { unfold Coroutines._async_update_data, bind.
    assert (platforms (self (snd (update fetched w))) = platforms (self w)) as Hu.
    { unfold update, connection_update, bind, lift, get_self, put_self, issue, ret; cbn.
      destruct fetched as [[[|]|e] left]; reflexivity. }
    unfold get_self, ret.
    destruct (update fetched w) as [[[v|]|e] w1]; cbn [fst snd] in *;
      cbv beta iota; try exact Hu.
    destruct (truthy _); cbv beta iota; [|exact Hu].
    pose proof (report_request_keeps_platforms a v w1) as Hr.
    destruct (report_request a v w1) as [[[]|e] w2]; cbn [fst snd] in *; congruence. }
  unfold Coroutines.async_refresh.
  destruct (Coroutines._async_update_data dashboard fetched a w) as [[[|l]|e] w']; exact H.
Qed.

Lemma async_refresh_stores (fetched : fetch)
    (a : answers) (w w' : world) :
  Coroutines.async_refresh dashboard fetched a w = (true, w') ->
  exists snapshot, data (self w') = Some snapshot.
Proof.
  unfold Coroutines.async_refresh.
  destruct (Coroutines._async_update_data dashboard fetched a w) as [[[|l]|e] w1];
    intros [= <-]. now exists l.
Qed.

(** What a setup that went through has built. *)
Lemma setup_inv (entry : ConfigEntry.t) (conn : Connection.t) (login : answers)
    (fetched : fetch) (a : answers)
    (holder : VolkswagenData.t) (forwarded : list string) (end_world : option world) :
  setup entry conn login fetched a = (SetUp holder forwarded, end_world) ->
  exists c snapshot,
    VolkswagenData.coordinator holder = Some c
    /\ data c = Some snapshot
    /\ platforms c = forwarded
    /\ forwarded = Coroutines.components_of (VolkswagenData.instruments holder)
    /\ enabled entry snapshot = Ok (VolkswagenData.instruments holder).
Proof.
  unfold Coroutines.async_setup_entry.
  destruct (Coroutines.update_interval entry); cbv beta iota; try discriminate.
  destruct (init entry conn) as [c0|e] eqn:Hinit; cbv beta iota; [|discriminate].
  pose proof (async_login_keeps login {| self := c0; issued := [] |}) as [Hp1 _].
  destruct (Coroutines.async_login login _) as [[[|]|e] w1]; cbv beta iota;
    try discriminate.
  pose proof (async_refresh_keeps_platforms fetched a w1) as Hp2.
  destruct (Coroutines.async_refresh dashboard fetched a w1) as [[|] w2] eqn:Hr;
    cbv beta iota; [|discriminate].
  destruct (async_refresh_stores _ _ _ _ Hr) as [snapshot Hsnap].
  destruct (VolkswagenData.init _ _) as [h|e]; cbv beta iota; [|discriminate].
  rewrite Hsnap. change (default [] (Some snapshot)) with snapshot.
  destruct (Coroutines.enabled_instruments slug_attr entry snapshot) as [registered|e] eqn:He;
    cbv beta iota; [|discriminate].
  cbv zeta. intros [= <- <- _]. eexists _, snapshot. cbn.
  repeat split; try assumption.
  cbn in Hp1, Hp2. rewrite Hp2, Hp1.
  unfold init in Hinit.
  destruct (ConfigEntry.data entry !! CONF_VEHICLE) as [[]|]; try discriminate.
  now injection Hinit as <-.
Qed.

(** X17. Every data holder a successful setup produces has a coordinator
    whose snapshot is set: an instrument lookup on it never raises. The
    registered instruments all come from that snapshot, and the
    coordinator's platforms are the platforms the entry was forwarded
    to. *)
Theorem setup_holder_is_ready (entry : ConfigEntry.t) (conn : Connection.t)
    (login : answers) (fetched : fetch) (a : answers)
    (holder : VolkswagenData.t) (forwarded : list string) (end_world : option world) :
  setup entry conn login fetched a = (SetUp holder forwarded, end_world) ->
  exists c snapshot,
    VolkswagenData.coordinator holder = Some c
    /\ data c = Some snapshot
    /\ platforms c = forwarded
    /\ (forall i, In i (VolkswagenData.instruments holder) -> In i snapshot)
    /\ (forall vin component attr, exists r,
          VolkswagenData.instrument holder vin component attr = Ok r).
Proof.
  intros H. destruct (setup_inv _ _ _ _ _ _ _ _ H) as (c & snapshot & Hc & Hd & Hp & _ & He).
  exists c, snapshot. repeat split; try assumption.
  - now apply enabled_incl with (entry := entry).
  - intros vin component attr. unfold VolkswagenData.instrument.
    rewrite Hc, Hd. eauto.
Qed.

(** X18. When the entry has no session and the login leaves none, the
    setup starts the re-authentication and stops: the login is the only
    call it issued, so nothing was fetched. *)
Theorem setup_starts_reauth_without_session (entry : ConfigEntry.t) (conn : Connection.t)
    (login : answers) (fetched : fetch) (a : answers)
    (minutes : Z) (c : t) :
  Coroutines.update_interval entry = Minutes minutes ->
  init entry conn = Ok c ->
  Connection.logged_in conn = false ->
  doLogin_answer login = Ok false ->
  exists w, setup entry conn login fetched a = (ReauthStarted, Some w)
            /\ issued w = [CallDoLogin].
Proof.
  intros Hi Hinit Hs Hl. unfold Coroutines.async_setup_entry. rewrite Hi, Hinit.
  assert (Connection.logged_in (connection c) = false) as Hc.
  { unfold init in Hinit.
    destruct (ConfigEntry.data entry !! CONF_VEHICLE) as [[]|]; try discriminate.
    now injection Hinit as <-. }
  unfold Coroutines.async_login, connection_doLogin,
    bind, lift, get_self, put_self, issue, ret; cbn.
  rewrite Hc, Hl. cbn. eexists. split; reflexivity.
Qed.

(** X19. Unloading an entry asks exactly those keys of [COMPONENTS] to
    unload that are among the coordinator's platforms. The entry's record
    leaves [hass.data] exactly when every platform asked answered that it
    unloaded (so always, when none was asked); the records of other
    entries are never touched. *)
Theorem unload_removes_entry_iff_all_unloaded
    (domain_data domain_data' : gmap string VolkswagenData.t) (entry_id : string)
    (unload_ok : string -> bool) (unloaded : bool) (asked : list string) :
  Coroutines.async_unload_coordinator domain_data entry_id unload_ok
  = Ok (unloaded, domain_data', asked) ->
  (unloaded = true <-> forall p, In p asked -> unload_ok p = true)
  /\ (domain_data' !! entry_id = None <-> unloaded = true)
  /\ (forall other, other <> entry_id -> domain_data' !! other = domain_data !! other)
  /\ exists holder c,
       domain_data !! entry_id = Some holder
       /\ VolkswagenData.coordinator holder = Some c
       /\ forall p, In p asked <-> is_Some (COMPONENTS !! p) /\ In p (platforms c).
Proof.
  unfold Coroutines.async_unload_coordinator.
  destruct (domain_data !! entry_id) as [holder|] eqn:Hh; [|discriminate].
  destruct (VolkswagenData.coordinator holder) as [c|] eqn:Hc; [|discriminate].
  intros [= <- <- <-]. split; [apply forallb_forall|]. split; [|split].
  - destruct (forallb unload_ok _).
    + rewrite lookup_delete_eq. tauto.
    + rewrite Hh. split; discriminate.
  - intros other Hne. destruct (forallb unload_ok _); [|reflexivity].
    now rewrite lookup_delete_ne.
  - exists holder, c. split; [first [reflexivity | assumption]|].
    split; [first [reflexivity | assumption]|].
    intros p. split.
    + intros H. apply filter_In in H as [Hk Hp]. split.
      * apply in_map_iff in Hk as ([k v] & <- & Hk).
        apply list_elem_of_In, elem_of_map_to_list in Hk. cbn. eauto.
      * apply existsb_exists in Hp as (x & Hx & He).
        apply String.eqb_eq in He. now subst.
    + intros [[v Hv] Hp]. apply filter_In. split.
      * apply in_map_iff. exists (p, v). split; [reflexivity|].
        now apply list_elem_of_In, elem_of_map_to_list.
      * apply existsb_exists. exists p. split; [assumption | apply String.eqb_refl].
Qed.

(** X20. When [COMPONENTS] maps every component to the platform of the
    same name, unloading an entry asks exactly the platforms its setup
    forwarded it to. *)
Theorem unload_asks_what_setup_forwarded (entry : ConfigEntry.t) (conn : Connection.t)
    (login : answers) (fetched : fetch) (a : answers)
    (holder : VolkswagenData.t) (forwarded : list string) (end_world : option world)
    (domain_data domain_data' : gmap string VolkswagenData.t) (entry_id : string)
    (unload_ok : string -> bool) (unloaded : bool) (asked : list string) :
  (forall component platform, COMPONENTS !! component = Some platform ->
                              platform = component) ->
  setup entry conn login fetched a = (SetUp holder forwarded, end_world) ->
  domain_data !! entry_id = Some holder ->
  Coroutines.async_unload_coordinator domain_data entry_id unload_ok
  = Ok (unloaded, domain_data', asked) ->
  forall p, In p asked <-> In p forwarded.
Proof.
  intros Hid Hsetup Hh Hunload p.
  destruct (setup_inv _ _ _ _ _ _ _ _ Hsetup) as (c & snapshot & Hc & _ & Hp & Hf & _).
  unfold Coroutines.async_unload_coordinator in Hunload.
  rewrite Hh, Hc in Hunload. injection Hunload as _ _ <-.
  rewrite filter_In, in_map_iff, existsb_exists, Hp. split.
  - intros (_ & x & Hx & He). apply String.eqb_eq in He. now subst.
  - intros Hin. split.
    + assert (exists i, In i (VolkswagenData.instruments holder)
                        /\ COMPONENTS !! Instrument.component i = Some p) as (i & _ & Hi).
      { rewrite Hf in Hin. unfold Coroutines.components_of in Hin.
        rewrite <- list_elem_of_In, elem_of_elements, elem_of_list_to_set,
          list_elem_of_omap in Hin.
        destruct Hin as (i & Hi & Hcp). exists i. split; [now apply list_elem_of_In | exact Hcp]. }
      pose proof (Hid _ _ Hi) as ->.
      exists (Instrument.component i, Instrument.component i). split; [reflexivity|].
      now apply list_elem_of_In, elem_of_map_to_list.
    + exists p. split; [assumption | apply String.eqb_refl].
Qed.

End SetupProperties.

Lemma update_interval_of_options_witness :
  Coroutines.update_interval (S := sample_setup_const)
    (golf_entry {[ "scan_interval" := PInt 0 ]})
  = timedelta_minutes (PInt 5).
Proof.
  apply (proj1 (proj2 (update_interval_of_options (S := sample_setup_const)
                         (golf_entry {[ "scan_interval" := PInt 0 ]}))) (PInt 0));
    reflexivity.
Defined.

Lemma enabled_instruments_by_allowlist_witness :
  exists keep : Instrument.t -> bool,
    Coroutines.enabled_instruments (S := sample_setup_const) Instrument.attr
      (ConfigEntry.mk {[ "resources" := PList [PStr "battery_level"; PStr "door_locked"] ]} ∅)
      [golf_door; golf_charging; golf_battery 80]
    = Ok (List.filter keep [golf_door; golf_charging; golf_battery 80])
    /\ forall i, keep i = true <->
                 is_Some (COMPONENTS (setup_const := sample_setup_const)
                          !! Instrument.component i)
                 /\ In (PStr (Instrument.attr i)) [PStr "battery_level"; PStr "door_locked"].
Proof.
  apply (proj2 (enabled_instruments_by_allowlist (S := sample_setup_const) Instrument.attr
                  (ConfigEntry.mk
                     {[ "resources" := PList [PStr "battery_level"; PStr "door_locked"] ]} ∅)
                  [golf_door; golf_charging; golf_battery 80])).
  reflexivity.
Defined.

Example enabled_instruments_allowlisted :
  Coroutines.enabled_instruments (S := sample_setup_const) Instrument.attr
    (ConfigEntry.mk {[ "resources" := PList [PStr "battery_level"; PStr "door_locked"] ]} ∅)
    [golf_door; golf_charging; golf_battery 80]
  = Ok [golf_door; golf_battery 80].
Proof. reflexivity. Qed.

Lemma setup_holder_is_ready_witness :
  exists holder forwarded end_world,
    Coroutines.async_setup_entry (K := sample_const) (S := sample_setup_const)
      sample_dashboard Instrument.attr (golf_entry ∅) (Connection.mk false [])
      (all_well noon noon) (fetched_vehicles [polo; golf]) (all_well noon noon)
    = (SetUp holder forwarded, end_world)
    /\ exists c snapshot,
         VolkswagenData.coordinator holder = Some c
         /\ VolkswagenCoordinator.data c = Some snapshot
         /\ VolkswagenCoordinator.platforms c = forwarded
         /\ (forall i, In i (VolkswagenData.instruments holder) -> In i snapshot)
         /\ (forall vin component attr, exists r,
               VolkswagenData.instrument holder vin component attr = Ok r).
Proof.
  eexists _, _, _. split; [vm_compute; reflexivity|].
  eapply (setup_holder_is_ready (K := sample_const) (S := sample_setup_const)
            sample_dashboard Instrument.attr (golf_entry ∅) (Connection.mk false [])
            (all_well noon noon) (fetched_vehicles [polo; golf]) (all_well noon noon)).
  vm_compute. reflexivity.
Defined.

Lemma setup_starts_reauth_without_session_witness :
  exists w,
    Coroutines.async_setup_entry (K := sample_const) (S := sample_setup_const)
      sample_dashboard Instrument.attr (golf_entry ∅) (Connection.mk false [])
      (answering noon (Ok false) (Ok (PBool true)) noon)
      (fetched_vehicles [polo; golf]) (all_well noon noon)
    = (ReauthStarted, Some w)
    /\ VolkswagenCoordinator.issued w = [CallDoLogin].
Proof.
  refine (setup_starts_reauth_without_session (K := sample_const)
            (S := sample_setup_const) sample_dashboard Instrument.attr
            (golf_entry ∅) (Connection.mk false [])
            (answering noon (Ok false) (Ok (PBool true)) noon)
            (fetched_vehicles [polo; golf]) (all_well noon noon) 5
            (golf_coordinator ∅ false None) _ _ _ _); reflexivity.
Defined.

Lemma unload_removes_entry_iff_all_unloaded_witness :
  exists unloaded domain_data' asked,
    Coroutines.async_unload_coordinator (S := sample_setup_const)
      sample_domain_data "entry-1" (fun p => String.eqb p "sensor")
    = Ok (unloaded, domain_data', asked)
    /\ (unloaded = true <-> forall p, In p asked -> String.eqb p "sensor" = true)
    /\ (domain_data' !! "entry-1" = None <-> unloaded = true).
Proof.
  eexists _, _, _. split; [vm_compute; reflexivity|].
  pose proof (unload_removes_entry_iff_all_unloaded (S := sample_setup_const)
                sample_domain_data _ "entry-1" (fun p => String.eqb p "sensor") _ _
                ltac:(vm_compute; reflexivity)) as (H1 & H2 & _).
  split; [exact H1 | exact H2].
Defined.

Lemma unload_asks_what_setup_forwarded_witness :
  exists forwarded unloaded domain_data' asked holder end_world,
    Coroutines.async_setup_entry (K := sample_const) (S := sample_setup_const)
      sample_dashboard Instrument.attr (golf_entry ∅) (Connection.mk false [])
      (all_well noon noon) (fetched_vehicles [polo; golf]) (all_well noon noon)
    = (SetUp holder forwarded, end_world)
    /\ Coroutines.async_unload_coordinator (S := sample_setup_const)
         (<["entry-1" := holder]> (∅ : gmap string VolkswagenData.t)) "entry-1"
         (fun _ => true)
       = Ok (unloaded, domain_data', asked)
    /\ forall p, In p asked <-> In p forwarded.
Proof.
  eexists _, _, _, _, _, _.
  match goal with
  | |- ?A /\ ?B /\ _ =>
      assert (HA : A) by (vm_compute; reflexivity);
      assert (HB : B) by (vm_compute; reflexivity)
  end.
  split; [exact HA|]. split; [exact HB|].
  apply (fun Hid Hh =>
           unload_asks_what_setup_forwarded (K := sample_const) (S := sample_setup_const)
             sample_dashboard Instrument.attr _ _ _ _ _ _ _ _ _ _ _ _ _ _
             Hid HA Hh HB).
  - intros component platform H.
    change (COMPONENTS (setup_const := sample_setup_const))
      with (<["sensor" := "sensor"]> (<["switch" := "switch"]>
              (<["lock" := "lock"]> (∅ : gmap string string)))) in H.
    repeat (apply lookup_insert_Some in H as [[<- <-] | [_ H]]; [reflexivity|]).
    now rewrite lookup_empty in H.
  - vm_compute. reflexivity.
Defined.

(** ** Entities *)

Lemma instrument_found_identity (d : VolkswagenData.t) (vin component attr : string)
    (i : Instrument.t) :
  VolkswagenData.instrument d vin component attr = Ok (Some i) ->
  instrument_identity i = (vin, component, attr).
Proof.
  unfold VolkswagenData.instrument. intros H.
  assert (exists l, List.find (VolkswagenData.matches vin component attr) l = Some i)
    as [l Hl].
  { destruct (VolkswagenData.coordinator d) as [c|].
    - destruct (VolkswagenCoordinator.data c) as [l|]; [|discriminate].
      exists l. congruence.
    - eexists. injection H as H. exact H. }
  apply List.find_some in Hl as [_ Hl]. now apply matches_identity.
Qed.

(** X21. An entity can be constructed exactly when its triple resolves in
    the current snapshot: the constructor then keeps the data holder and
    the triple and the resolved instrument carries that triple; when the
    snapshot holds no such instrument the constructor raises an
    AttributeError, and when the lookup raises, so does it. *)
Theorem entity_init_resolves (d : VolkswagenData.t) (vin component attribute : string) :
  match EntityViews.init d vin component attribute with
  | Ok e =>
      e = VolkswagenEntity.mk d vin component attribute
      /\ exists i, VolkswagenEntity.instrument e = Ok (Some i)
                   /\ instrument_identity i = (vin, component, attribute)
  | Raise err =>
      (VolkswagenData.instrument d vin component attribute = Ok None
       /\ err = AttributeError)
      \/ VolkswagenData.instrument d vin component attribute = Raise err
  end.
Proof.
  unfold EntityViews.init, VolkswagenEntity.instrument. cbn.
  destruct (VolkswagenData.instrument d vin component attribute) as [[i|]|err] eqn:H.
  - split; [reflexivity|]. exists i. split; [exact H|].
    eapply instrument_found_identity, H.
  - left. split; reflexivity.
  - right. reflexivity.
Qed.

Section EntityProperties.
Variable repr : pyval -> string.
Variable attributes : Instrument.t -> gmap string pyval.
Variables model model_year model_image : Vehicle.t -> pyval.
Variable is_model_image_supported : Vehicle.t -> bool.
Variable icon_for_battery_level : pyval -> bool -> result string.

Abbreviation extra_attributes :=
  (EntityViews.extra_state_attributes repr attributes model model_year model_image
     is_model_image_supported).

(** X22. Under a naming policy that is a single string, the name of an
    entity whose instrument resolves is that string, a space, and the
    instrument's display name. *)
Theorem name_under_string_policy (e : VolkswagenEntity.t) (i : Instrument.t)
    (policy : string) :
  VolkswagenData.names (VolkswagenEntity.data e) = PStr policy ->
  VolkswagenEntity.instrument e = Ok (Some i) ->
  EntityViews.name repr e = Ok (policy +:+ " " +:+ Instrument.name i).
Proof.
  intros Hp Hi.
  unfold EntityViews.name, EntityViews._vehicle_name, EntityViews._entity_name,
    VolkswagenEntity.vehicle, VolkswagenEntity.instrument_attr,
    VolkswagenData.vehicle_name.
  now rewrite Hi, Hp.
Qed.

(** X23. An entity whose triple is no longer in the snapshot still has
    its unique id, but every property that reads the instrument (the
    vehicle, the icon, the name, the extra state attributes) raises an
    AttributeError. *)
Theorem stale_entity_raises (e : VolkswagenEntity.t) :
  VolkswagenEntity.instrument e = Ok None ->
  VolkswagenEntity.vehicle e = Raise AttributeError
  /\ VolkswagenEntity.icon icon_for_battery_level e = Raise AttributeError
  /\ EntityViews.name repr e = Raise AttributeError
  /\ extra_attributes e = Raise AttributeError
  /\ VolkswagenEntity.unique_id e
     = VolkswagenEntity.vin e +:+ "-" +:+ VolkswagenEntity.component e
       +:+ "-" +:+ VolkswagenEntity.attribute e.
Proof.
  intros Hi.
  unfold VolkswagenEntity.icon, EntityViews.name, EntityViews._vehicle_name,
    EntityViews._entity_name, EntityViews.extra_state_attributes,
    VolkswagenEntity.vehicle, VolkswagenEntity.instrument_attr.
  rewrite Hi. repeat split.
Qed.

(** X24. The extra state attributes of an entity whose instrument
    resolves are the instrument's attributes with "model" set to
    "{model}/{model year}" of the vehicle, whatever the instrument said
    under that key, and with "image_url" set to the vehicle's model image
    when the vehicle supports one; every other key is the
    instrument's. *)
Theorem extra_state_attributes_lookup (e : VolkswagenEntity.t) (i : Instrument.t) :
  VolkswagenEntity.instrument e = Ok (Some i) ->
  exists attrs,
    extra_attributes e = Ok attrs
    /\ attrs !! "model"
       = Some (PStr (EntityViews.py_str repr (model (Instrument.vehicle i)) +:+ "/"
                     +:+ EntityViews.py_str repr (model_year (Instrument.vehicle i))))
    /\ attrs !! "image_url"
       = (if is_model_image_supported (Instrument.vehicle i)
          then Some (model_image (Instrument.vehicle i))
          else attributes i !! "image_url")
    /\ forall key, key <> "model" -> key <> "image_url" ->
                   attrs !! key = attributes i !! key.
Proof.
  intros Hi.
  unfold EntityViews.extra_state_attributes, VolkswagenEntity.vehicle,
    VolkswagenEntity.instrument_attr.
  rewrite Hi.
  destruct (is_model_image_supported (Instrument.vehicle i)); cbn;
    eexists; (split; [reflexivity|]); repeat split.
  - rewrite lookup_insert_ne by discriminate. apply lookup_insert_eq.
  - apply lookup_insert_eq.
  - intros key H1 H2. rewrite !lookup_insert_ne by congruence. reflexivity.
  - apply lookup_insert_eq.
  - rewrite lookup_insert_ne by discriminate. reflexivity.
  - intros key H1 H2. rewrite lookup_insert_ne by congruence. reflexivity.
Qed.

End EntityProperties.

Lemma name_under_string_policy_witness :
  EntityViews.name (fun _ => "")
    (VolkswagenEntity.mk sample_holder "WVWZZZAUZGW000001" "sensor" "battery_level")
  = Ok "Golf Battery level".
Proof.
  apply (name_under_string_policy (fun _ => "")
           (VolkswagenEntity.mk sample_holder "WVWZZZAUZGW000001" "sensor" "battery_level")
           (golf_battery 80) "Golf"); reflexivity.
Defined.

Lemma stale_entity_raises_witness :
  VolkswagenEntity.icon ha_icon_for_battery_level
    (VolkswagenEntity.after_refresh [golf_door]
       (VolkswagenEntity.mk sample_holder "WVWZZZAUZGW000001" "sensor" "battery_level"))
  = Raise AttributeError.
Proof.
  apply (stale_entity_raises (fun _ => "") (fun _ => ∅)
           (fun _ => PNone) (fun _ => PNone) (fun _ => PNone) (fun _ => false)
           ha_icon_for_battery_level
           (VolkswagenEntity.after_refresh [golf_door]
              (VolkswagenEntity.mk sample_holder "WVWZZZAUZGW000001" "sensor"
                 "battery_level"))).
  reflexivity.
Defined.

Lemma extra_state_attributes_lookup_witness :
  exists attrs,
    EntityViews.extra_state_attributes (fun _ => "")
      (fun _ => {[ "model" := PStr "from the instrument" ]})
      (fun _ => PStr "Golf") (fun _ => PInt 2016) (fun _ => PStr "https://image")
      (fun _ => true)
      (VolkswagenEntity.mk sample_holder "WVWZZZAUZGW000001" "sensor" "battery_level")
    = Ok attrs
    /\ attrs !! "model" = Some (PStr "Golf/2016").
Proof.
  destruct (extra_state_attributes_lookup (fun _ => "")
              (fun _ => {[ "model" := PStr "from the instrument" ]})
              (fun _ => PStr "Golf") (fun _ => PInt 2016) (fun _ => PStr "https://image")
              (fun _ => true)
              (VolkswagenEntity.mk sample_holder "WVWZZZAUZGW000001" "sensor"
                 "battery_level")
              (golf_battery 80) eq_refl) as (attrs & H1 & H2 & _).
  exists attrs. split; [exact H1 | exact H2].
Defined.

(** ** What the schemas hand to the service functions *)

Lemma device_id_validated (v v' : pyval) :
  vol_All [cv_string; vol_Length 32 32] v = Some v' ->
  exists s, v' = PStr s /\ String.length s = 32%nat.
Proof.
  cbn [vol_All]. destruct (cv_string v) as [w|] eqn:Hs; [|discriminate].
  destruct (cv_string_str _ _ Hs) as [s ->].
  destruct (vol_Length 32 32 (PStr s)) as [u|] eqn:E; [|discriminate].
  intros [= <-]. exists s.
  assert (u = PStr s) as ->.
  { unfold vol_Length, py_len in E.
    destruct (Nat.leb 32 (String.length s) && Nat.leb (String.length s) 32)%bool;
      congruence. }
  split; [reflexivity|]. apply vol_Length_str in E. lia.
Qed.

Section DispatchProperties.
Variables cv_boolean cv_positive_int : validator.

Abbreviation call_service := (async_call cv_boolean cv_positive_int).
Abbreviation schema_for := (registered_schema cv_boolean cv_positive_int).

Lemma dispatched_data (s : service) (payload d : gmap string pyval) :
  call_service s payload = Dispatched d ->
  d = map_imap (validate_item (schema_for s)) payload
  /\ forall k v, payload !! k = Some v ->
                 exists v', validate_item (schema_for s) k v = Some v'.
Proof.
  unfold async_call.
  destruct (schema_call (schema_for s) payload) as [d'|] eqn:H; [|discriminate].
  intros [= <-]. split; [|eapply schema_call_Some, H].
  unfold schema_call in H.
  destruct (required_present _ _ && items_valid _ _)%bool; congruence.
Qed.

(** X25. The data a service function receives has exactly the keys of
    the payload, and every key the schema does not declare carries the
    value the caller sent, unchecked. *)
Theorem dispatch_passes_undeclared_keys (s : service) (payload d : gmap string pyval) :
  call_service s payload = Dispatched d ->
  (forall key, d !! key = None <-> payload !! key = None)
  /\ (forall key v, schema_lookup (schema_for s) key = None ->
                    payload !! key = Some v -> d !! key = Some v).
Proof.
  intros H. apply dispatched_data in H as [-> Hvalid]. split.
  - intros key. rewrite map_lookup_imap.
    destruct (payload !! key) as [v|] eqn:Hk; cbn; [|tauto].
    destruct (Hvalid _ _ Hk) as [v' ->]. split; discriminate.
  - intros key v Hundeclared Hk. rewrite map_lookup_imap, Hk. cbn.
    unfold validate_item. now rewrite Hundeclared.
Qed.

(** X26. Whichever of the four services is called, a device identifier
    that reaches the service function is a string of exactly 32
    characters. *)
Theorem dispatched_device_id_is_32_characters (s : service)
    (payload d : gmap string pyval) (v : pyval) :
  call_service s payload = Dispatched d ->
  d !! "device_id" = Some v ->
  exists str, v = PStr str /\ String.length str = 32%nat.
Proof.
  intros H Hv. apply dispatched_data in H as [-> _].
  rewrite map_lookup_imap in Hv.
  destruct (payload !! "device_id") as [u|]; [|discriminate]. cbn in Hv.
  unfold validate_item in Hv. rewrite device_id_declared in Hv.
  eapply device_id_validated, Hv.
Qed.

(** X27. The range written for the profile number of update-profile and
    for the charging profile of update-schedule sets no bound: each of the
    two fields is accepted, and coerced, exactly as [cv.positive_int]
    alone would. *)
Theorem profile_numbers_are_not_bounded (v : pyval) :
  validate_item (schema_for SERVICE_UPDATE_PROFILE) "profile_id" v = cv_positive_int v
  /\ validate_item (schema_for SERVICE_UPDATE_SCHEDULE) "charging_profile" v
     = cv_positive_int v.
Proof.
  split; cbn; destruct (cv_positive_int v); reflexivity.
Qed.

End DispatchProperties.

Lemma dispatch_passes_undeclared_keys_witness :
  exists d,
    async_call refuse_all refuse_all SERVICE_SET_CHARGER_MAX_CURRENT
      (<["max_current" := PStr "max"]> {[ "anything" := PList [PNone] ]})
    = Dispatched d
    /\ d !! "anything" = Some (PList [PNone]).
Proof.
  eexists. split; [vm_compute; reflexivity|].
  refine (proj2 (dispatch_passes_undeclared_keys refuse_all refuse_all
                   SERVICE_SET_CHARGER_MAX_CURRENT
                   (<["max_current" := PStr "max"]> {[ "anything" := PList [PNone] ]})
                   _ _) "anything" (PList [PNone]) _ _);
    vm_compute; reflexivity.
Defined.

Lemma dispatched_device_id_is_32_characters_witness :
  exists str,
    PStr "10000000000000000000000000000000" = PStr str /\ String.length str = 32%nat.
Proof.
  refine (dispatched_device_id_is_32_characters refuse_all refuse_all
            SERVICE_UPDATE_SCHEDULE
            (<["device_id" := PInt 10000000000000000000000000000000]>
               {[ "timer_id" := PInt 1 ]})
            _ (PStr "10000000000000000000000000000000") _ _);
    vm_compute; reflexivity.
Defined.
